(** * Course Match: the ILP model of the two Streamlit pages

    Shallow embedding of [pages/4_Course_Match.py] (pairwise conflict
    constraints) and [pages/5_v2_Course_Match.py] (grouped conflict
    constraints).

    Conventions of the embedding.
    - A row of [course_data] is a record; the text columns are strings and
      the numeric columns ([Price], [Credits], [Utility]) are exact
      rationals, so sums and comparisons are those of the reals and not of
      binary floating point.
    - [course_vars] is a dict keyed by [SectionID]; every use of a variable
      goes through [course_vars[row['SectionID']]], so a variable is
      identified with its key.
    - The solver is external.  What it may return is characterised by the
      model it is handed: an assignment of values to the variables that
      respects the [Binary] category and every constraint ([feasible]),
      and, for an optimal status, one that maximises the objective. *)

From Stdlib Require Import List String Ascii Bool Arith Lia.
From Stdlib Require Import ZArith QArith Lqa.
From Stdlib Require Import DecimalString DecimalNat Decimal.
Import ListNotations.

Open Scope string_scope.
Open Scope list_scope.
Open Scope Q_scope.

(** ** Rows of the course table *)

Record Row : Type := mkRow {
  SectionID  : string;
  Section_   : string;   (* column 'Section': the course name *)
  Instructor : string;
  Days       : string;
  Time       : string;
  Term       : string;
  Price      : Q;
  Credits    : Q;
  Utility    : Q
}.

(** ** Python string and collection primitives used by the pages *)

(** [x in [..]] on a list of strings. *)
Definition str_in_list (x : string) (l : list string) : bool :=
  existsb (String.eqb x) l.

(** [set(s)] for a string [s]: the collection of its one-character
    strings.  Only membership is ever asked of it, so the order and the
    repetitions of the list are immaterial. *)
Fixpoint set_of_str (s : string) : list string :=
  match s with
  | EmptyString => []
  | String c s' => String c EmptyString :: set_of_str s'
  end.

(** [x in set(..)]. *)
Definition in_set (x : string) (st : list string) : bool :=
  existsb (String.eqb x) st.

(** [sub in s] on strings: substring test. *)
Fixpoint str_contains (sub s : string) : bool :=
  match s with
  | EmptyString => String.prefix sub EmptyString
  | String _ s' => String.prefix sub s || str_contains sub s'
  end.

(** [sep.join(parts)]. *)
Definition join (sep : string) (parts : list string) : string :=
  String.concat sep parts.

(** [str(n)] for a row index. *)
Definition str_of_nat (n : nat) : string :=
  NilEmpty.string_of_uint (Nat.to_uint n).

(** ** 4_Course_Match.py: the pairwise conflict predicate *)

Definition quarters : list string := ["Q1"; "Q2"; "Q3"; "Q4"].

Definition conflicts (course_a course_b : Row) : bool :=
  if negb (String.eqb (Time course_a) (Time course_b)) then false
  else if negb (String.eqb (Term course_a) (Term course_b))
          && negb ((String.eqb (Term course_a) "Full"
                      && str_in_list (Term course_b) quarters)
                   || (String.eqb (Term course_b) "Full"
                         && str_in_list (Term course_a) quarters))
  then false
  else
    let days_a := set_of_str (Days course_a) in
    let days_b := set_of_str (Days course_b) in
    if (in_set "M" days_a && in_set "M" days_b)
       || (in_set "W" days_a && in_set "W" days_b) then true
    else if in_set "MW" days_a && (in_set "M" days_b || in_set "W" days_b)
    then true
    else if in_set "MW" days_b && (in_set "M" days_a || in_set "W" days_a)
    then true
    else if (in_set "T" days_a && in_set "T" days_b)
            || (in_set "R" days_a && in_set "R" days_b) then true
    else if in_set "TR" days_a && (in_set "T" days_b || in_set "R" days_b)
    then true
    else if in_set "TR" days_b && (in_set "T" days_a || in_set "R" days_a)
    then true
    else false.

(** ** 5_v2_Course_Match.py: the group key *)

Definition get_group_id (row : Row) : string :=
  let group_components := [Time row] in
  let group_components :=
    if String.eqb (Term row) "Full"
    then group_components ++ ["Full"]
    else group_components ++ [Term row] in
  let group_components :=
    if str_contains "M" (Days row)
    then group_components ++ ["M"] else group_components in
  let group_components :=
    if str_contains "W" (Days row)
    then group_components ++ ["W"] else group_components in
  let group_components :=
    if str_contains "T" (Days row)
    then group_components ++ ["T"] else group_components in
  let group_components :=
    if str_contains "R" (Days row)
    then group_components ++ ["R"] else group_components in
  join "_" group_components.

(** ** The fragment of PuLP the pages use

    A variable is named by its key in [course_vars].  An affine expression
    is the list of its terms; [lpSum] concatenates terms and a variable that
    occurs twice counts twice, as in PuLP, where the coefficients of a
    repeated variable are added.  Every constraint of the pages has the
    shape [expression <= constant]. *)

Definition LpVariable : Type := string.

Definition LpAffineExpression : Type := list (Q * LpVariable).

Record LpConstraint : Type := mkConstraint {
  lhs   : LpAffineExpression;
  rhs   : Q;
  cname : string
}.

Record LpProblem : Type := mkProblem {
  variables   : list LpVariable;       (* all of category Binary *)
  objective   : LpAffineExpression;    (* LpMaximize *)
  constraints : list LpConstraint
}.

(** [varValue] of every variable after a solve. *)
Definition Assignment : Type := LpVariable -> Q.

Fixpoint value (e : LpAffineExpression) (v : Assignment) : Q :=
  match e with
  | [] => 0
  | (c, x) :: e' => c * v x + value e' v
  end.

(** [lpSum] of a list of variables. *)
Definition lpSum_vars (xs : list LpVariable) : LpAffineExpression :=
  map (fun x => (1, x)) xs.

Definition is_binary (v : Assignment) (x : LpVariable) : bool :=
  Qeq_bool (v x) 0 || Qeq_bool (v x) 1.

Definition satisfies (v : Assignment) (c : LpConstraint) : bool :=
  Qle_bool (value (lhs c) v) (rhs c).

Definition feasibleb (p : LpProblem) (v : Assignment) : bool :=
  forallb (is_binary v) (variables p) && forallb (satisfies v) (constraints p).

Definition feasible (p : LpProblem) (v : Assignment) : Prop :=
  feasibleb p v = true.

(** Status [Optimal] of a maximisation. *)
Definition optimal (p : LpProblem) (v : Assignment) : Prop :=
  feasible p v /\
  forall v', feasible p v' -> value (objective p) v' <= value (objective p) v.

(** ** Parts of the model shared by the two pages *)

(** [course_data.iterrows()]: the rows with their index labels [0..n-1]. *)
Definition iterrows (course_data : list Row) : list (nat * Row) :=
  combine (seq 0 (List.length course_data)) course_data.

(** The keys of the dict [course_vars]. *)
Definition course_vars (course_data : list Row) : list LpVariable :=
  nodup string_dec (map SectionID course_data).

Definition budget_of (student_year : string) : Q :=
  if String.eqb student_year "1st Year" then 4400 else 5500.

Definition objective_of (course_data : list Row) : LpAffineExpression :=
  map (fun row => (Utility row * Credits row, SectionID row)) course_data.

Definition BudgetConstraint (course_data : list Row) (budget : Q)
  : LpConstraint :=
  mkConstraint (map (fun row => (Price row, SectionID row)) course_data)
               budget "BudgetConstraint".

Definition CreditLimitConstraint (course_data : list Row) (credit_limit : Q)
  : LpConstraint :=
  mkConstraint (map (fun row => (Credits row, SectionID row)) course_data)
               credit_limit "CreditLimitConstraint".

(** A dict of lists filled by
    [if k not in d: d[k] = []] followed by [d[k].append(x)];
    the entries stay in insertion order. *)
Fixpoint dict_append (d : list (string * list LpVariable))
         (k : string) (x : LpVariable) : list (string * list LpVariable) :=
  match d with
  | [] => [(k, [x])]
  | (k', xs) :: d' =>
      if String.eqb k' k then (k', xs ++ [x]) :: d'
      else (k', xs) :: dict_append d' k x
  end.

Fixpoint dict_get (d : list (string * list LpVariable)) (k : string)
  : option (list LpVariable) :=
  match d with
  | [] => None
  | (k', xs) :: d' => if String.eqb k' k then Some xs else dict_get d' k
  end.

Definition group_by (key : Row -> string) (course_data : list Row)
  : list (string * list LpVariable) :=
  fold_left (fun d row => dict_append d (key row) (SectionID row))
            course_data [].

Definition course_sections (course_data : list Row)
  : list (string * list LpVariable) :=
  group_by Section_ course_data.

Definition OneSectionPerCourse (course_data : list Row) : list LpConstraint :=
  map (fun '(course_name, sections) =>
         mkConstraint (lpSum_vars sections) 1
                      (String.append "OneSectionPerCourse_" course_name))
      (course_sections course_data).

Definition exclusive_courses : list (list string) :=
  [ ["MGMT6110"; "MGMT6120"];
    ["COURSE_X1"; "COURSE_X2"] ].

Definition course_group_vars (course_data : list Row)
           (course_group : list string) : list LpVariable :=
  flat_map (fun course =>
              map SectionID
                  (filter (fun row => String.eqb (Section_ row) course)
                          course_data))
           course_group.

Definition ExclusiveConstraint (course_data : list Row)
           (course_group : list string) : LpConstraint :=
  mkConstraint (lpSum_vars (course_group_vars course_data course_group)) 1
               (String.append "ExclusiveConstraint_" (join "_" course_group)).

Definition ExclusiveConstraints (course_data : list Row)
  : list LpConstraint :=
  map (ExclusiveConstraint course_data) exclusive_courses.

(** ** 4_Course_Match.py: the model with pairwise conflict constraints *)

Module CourseMatch.

Definition Conflict (i j : nat) (course_a course_b : Row) : LpConstraint :=
  mkConstraint [(1, SectionID course_a); (1, SectionID course_b)] 1
               (String.append "Conflict_"
                  (String.append (str_of_nat i)
                     (String.append "_" (str_of_nat j)))).

Definition ConflictConstraints (course_data : list Row)
  : list LpConstraint :=
  flat_map
    (fun '(i, course_a) =>
       flat_map
         (fun '(j, course_b) =>
            if (j <=? i)%nat then []          (* i >= j: continue *)
            else if conflicts course_a course_b
                 then [Conflict i j course_a course_b]
                 else [])
         (iterrows course_data))
    (iterrows course_data).

Definition problem (course_data : list Row) (credit_limit : Q)
           (student_year : string) : LpProblem :=
  let budget := budget_of student_year in
  mkProblem (course_vars course_data)
            (objective_of course_data)
            (BudgetConstraint course_data budget
             :: ConflictConstraints course_data
             ++ OneSectionPerCourse course_data
             ++ ExclusiveConstraints course_data
             ++ [CreditLimitConstraint course_data credit_limit]).

End CourseMatch.

(** ** 5_v2_Course_Match.py: the model with grouped conflict constraints *)

Module CourseMatchV2.

Definition grouped_courses (course_data : list Row)
  : list (string * list LpVariable) :=
  group_by get_group_id course_data.

Definition GroupConstraints (course_data : list Row)
  : list LpConstraint :=
  map (fun '(group_id, courses) =>
         mkConstraint (lpSum_vars courses) 1
                      (String.append "GroupConstraint_" group_id))
      (grouped_courses course_data).

Definition problem (course_data : list Row) (credit_limit : Q)
           (student_year : string) : LpProblem :=
  let budget := budget_of student_year in
  mkProblem (course_vars course_data)
            (objective_of course_data)
            (BudgetConstraint course_data budget
             :: GroupConstraints course_data
             ++ OneSectionPerCourse course_data
             ++ ExclusiveConstraints course_data
             ++ [CreditLimitConstraint course_data credit_limit]).

End CourseMatchV2.

(** ** The result assembler

    The text is the same in both pages; the frame of page 5 carries one
    more column, ['GroupID'], which the assembler does not read.  The
    definitions follow page 4.

    A [DataFrame] is a list of column labels and a list of rows; a row maps
    a label to a cell, and a label it does not carry reads as [NaN]. *)

Inductive Cell : Type :=
| CStr (s : string)
| CNum (q : Q)
| NaN.

Definition Series : Type := list (string * Cell).

Record DataFrame : Type := mkFrame {
  columns : list string;
  rows    : list Series
}.

Fixpoint cell (r : Series) (col : string) : Cell :=
  match r with
  | [] => NaN
  | (k, c) :: r' => if String.eqb k col then c else cell r' col
  end.

(** [df[col].sum()]: missing cells are skipped. *)
Fixpoint column_sum (rs : list Series) (col : string) : Q :=
  match rs with
  | [] => 0
  | r :: rs' =>
      match cell r col with
      | CNum q => q + column_sum rs' col
      | _ => column_sum rs' col
      end
  end.

(** [df.append(d, ignore_index=True)] for a dict [d]: the labels of [d]
    that the frame lacks become new columns. *)
Definition df_append (df : DataFrame) (d : Series) : DataFrame :=
  mkFrame (columns df
           ++ filter (fun k => negb (str_in_list k (columns df)))
                     (map fst d))
          (rows df ++ [d]).

(** [df[[c1, ..., cn]]]: a label that is not a column raises [KeyError]. *)
Definition df_select (df : DataFrame) (cols : list string)
  : option DataFrame :=
  if forallb (fun c => str_in_list c (columns df)) cols
  then Some (mkFrame cols
               (map (fun r => map (fun c => (c, cell r c)) cols) (rows df)))
  else None.

Definition course_columns : list string :=
  ["SectionID"; "Section"; "Instructor"; "Days"; "Time"; "Term";
   "Price"; "Credits"; "Utility"].

Definition series_of_row (row : Row) : Series :=
  [("SectionID", CStr (SectionID row));
   ("Section", CStr (Section_ row));
   ("Instructor", CStr (Instructor row));
   ("Days", CStr (Days row));
   ("Time", CStr (Time row));
   ("Term", CStr (Term row));
   ("Price", CNum (Price row));
   ("Credits", CNum (Credits row));
   ("Utility", CNum (Utility row))].

(** [selected_courses]: the ids of the rows whose variable has value 1. *)
Definition selected_courses (course_data : list Row) (v : Assignment)
  : list string :=
  map SectionID
      (filter (fun row => Qeq_bool (v (SectionID row)) 1) course_data).

(** [course_data[course_data['SectionID'].isin(selected_courses)]]. *)
Definition selected_rows (course_data : list Row) (v : Assignment)
  : list Row :=
  filter (fun row => str_in_list (SectionID row)
                                 (selected_courses course_data v))
         course_data.

(** The selected rows with their ['Weighted Utility'] column. *)
Definition with_weighted_utility (row : Row) : Series :=
  series_of_row row
  ++ [("Weighted Utility", CNum (Utility row * Credits row))].

Definition selected_courses_data (course_data : list Row) (v : Assignment)
  : DataFrame :=
  mkFrame (course_columns ++ ["Weighted Utility"])
          (map with_weighted_utility (selected_rows course_data v)).

Definition summary_data (selected : DataFrame) : Series :=
  [("SectionID", CStr "Total");
   ("Course Name", CStr "");
   ("Instructor", CStr "");
   ("Days", CStr "");
   ("Time", CStr "");
   ("Price", CNum (column_sum (rows selected) "Price"));
   ("Utility", CStr "");
   ("Credits", CNum (column_sum (rows selected) "Credits"));
   ("Weighted Utility",
    CNum (column_sum (rows selected) "Weighted Utility"))].

(** The table after the summary row has been appended. *)
Definition assemble (course_data : list Row) (v : Assignment) : DataFrame :=
  let selected := selected_courses_data course_data v in
  df_append selected (summary_data selected).

(** The final column selection of the pages. *)
Definition displayed (course_data : list Row) (v : Assignment)
  : option DataFrame :=
  df_select (assemble course_data v)
            ["SectionID"; "Course_Name"; "Instructor"; "Days"; "Time";
             "Price"; "Credits"; "Weighted Utility"].

(** Sum of a numeric column over rows. *)
Fixpoint total (f : Row -> Q) (rs : list Row) : Q :=
  match rs with
  | [] => 0
  | r :: rs' => f r + total f rs'
  end.

(** [varValue == 1] for the variable of a row. *)
Definition is_selected (v : Assignment) (row : Row) : bool :=
  Qeq_bool (v (SectionID row)) 1.

(** ** Reading of the conflict predicate as a formula *)

Definition same_slot (a b : Row) : bool := String.eqb (Time a) (Time b).

Definition terms_overlap (a b : Row) : bool :=
  String.eqb (Term a) (Term b)
  || (String.eqb (Term a) "Full" && str_in_list (Term b) quarters)
  || (String.eqb (Term b) "Full" && str_in_list (Term a) quarters).

Definition on_day (d : string) (row : Row) : bool :=
  in_set d (set_of_str (Days row)).

Definition days_overlap (a b : Row) : bool :=
  (on_day "M" a && on_day "M" b) || (on_day "W" a && on_day "W" b)
  || (on_day "T" a && on_day "T" b) || (on_day "R" a && on_day "R" b).

(** The row meets on one of the four days the predicate knows. *)
Definition meets_MWTR (row : Row) : bool :=
  on_day "M" row || on_day "W" row || on_day "T" row || on_day "R" row.

(** ** Notions used to state the properties *)

(** An assignment the solver may return for the model of one of the two
    pages. *)
Definition feasible_in_a_page (course_data : list Row) (credit_limit : Q)
           (student_year : string) (v : Assignment) : Prop :=
  feasible (CourseMatch.problem course_data credit_limit student_year) v
  \/ feasible (CourseMatchV2.problem course_data credit_limit student_year) v.

(** The rows behind [course_group_vars]. *)
Definition rows_of_group (course_data : list Row) (course_group : list string)
  : list Row :=
  flat_map (fun course =>
              filter (fun row => String.eqb (Section_ row) course) course_data)
           course_group.

(** The string has no underscore, the separator of the group key. *)
Definition no_underscore (s : string) : bool :=
  negb (str_contains "_" s).

(** The day part of a group key, from the four tests of [get_group_id]. *)
Definition day_suffix (m w t r : bool) : string :=
  String.append (if m then "_M" else "")
    (String.append (if w then "_W" else "")
       (String.append (if t then "_T" else "") (if r then "_R" else ""))).

(** The tail of the assembler over any frame of selected rows: append the
    summary row, then select the columns to display.  [displayed] is this
    function at the frame of a table with the nine columns of [Row]. *)
Definition display_of (selected : DataFrame) : option DataFrame :=
  df_select (df_append selected (summary_data selected))
            ["SectionID"; "Course_Name"; "Instructor"; "Days"; "Time";
             "Price"; "Credits"; "Weighted Utility"].

(** The assignment that sets exactly the variables of [chosen] to 1. *)
Definition indicator (chosen : list LpVariable) : Assignment :=
  fun x => if str_in_list x chosen then 1 else 0.

(** All sublists of a list of variables. *)
Fixpoint subsets (xs : list LpVariable) : list (list LpVariable) :=
  match xs with
  | [] => [[]]
  | x :: xs' => map (cons x) (subsets xs') ++ subsets xs'
  end.

(** Every variable of the objective and of the constraints is declared. *)
Definition well_scoped (p : LpProblem) : Prop :=
  (forall c x, In (c, x) (objective p) -> In x (variables p))
  /\ forall k c x, In k (constraints p) -> In (c, x) (lhs k) ->
                   In x (variables p).

(** The 0/1 assignment that agrees with a binary [v] on the declared
    variables of [p]. *)
Definition rounded (p : LpProblem) (v : Assignment) : Assignment :=
  indicator (filter (fun x => Qeq_bool (v x) 1) (variables p)).

(** All variables held by the lists of a dict. *)
Definition dict_vars (d : list (string * list LpVariable))
  : list LpVariable :=
  flat_map snd d.

(** How many constraints of a list bear a given name. *)
Definition count_named (name : string) (cs : list LpConstraint) : nat :=
  List.length (filter (fun c => String.eqb (cname c) name) cs).

(** ** Sample rows *)

Module Sample.

Definition row (id course days time term : string) (price credits utility : Q)
  : Row :=
  mkRow id course "Staff" days time term price credits utility.

(** Same slot and days, one full-semester and one first-quarter section. *)
Definition full_MW : Row := row "A1" "ACCT6110" "MW" "9:00" "Full" 1000 1 5.
Definition q1_MW   : Row := row "B1" "FNCE6130" "MW" "9:00" "Q1" 1000 (1#2) 3.
Definition q2_MW   : Row := row "C1" "MKTG6120" "MW" "9:00" "Q2" 1000 (1#2) 4.

(** The same pair meeting on a day outside M, W, T, R. *)
Definition full_F : Row := row "A2" "ACCT6110" "F" "9:00" "Full" 1000 1 5.
Definition q1_F   : Row := row "B2" "FNCE6130" "F" "9:00" "Q1" 1000 (1#2) 3.

(** Disjoint days in the same slot and term. *)
Definition full_TR : Row := row "D1" "OIDD6150" "TR" "9:00" "Full" 1000 1 2.

(** The two courses of the first exclusivity group, in different slots. *)
Definition mgmt_6110 : Row := row "M1" "MGMT6110" "MW" "10:15" "Full" 1000 1 5.
Definition mgmt_6120 : Row := row "M2" "MGMT6120" "TR" "13:45" "Full" 1000 1 4.

(** A section that carries no credit. *)
Definition no_credit : Row := row "Z1" "LGST6420" "M" "15:30" "Q1" 500 0 5.

(** Only the variable of [id] at 1. *)
Definition only (id : string) : Assignment :=
  fun x => if String.eqb x id then 1 else 0.

(** Every variable at 1. *)
Definition all_selected : Assignment := fun _ => 1.

(** All variables at 0. *)
Definition none_selected : Assignment := fun _ => 0.

End Sample.

(** * Properties of the conflict predicate *)

Lemma in_set_of_str_length (x s : string) :
  in_set x (set_of_str s) = true -> String.length x = 1%nat.
Proof.
  induction s as [|c s IH]; simpl; [discriminate|].
  intros H. apply orb_true_iff in H as [H|H]; [|exact (IH H)].
  apply String.eqb_eq in H. subst x. reflexivity.
Qed.

Lemma in_set_composite (x s : string) :
  String.length x <> 1%nat -> in_set x (set_of_str s) = false.
Proof.
  intros Hlen. destruct (in_set x (set_of_str s)) eqn:E; [|reflexivity].
  apply in_set_of_str_length in E. contradiction.
Qed.

Lemma in_set_char (c : ascii) (s : string) :
  in_set (String c EmptyString) (set_of_str s) = true
  <-> In c (list_ascii_of_string s).
Proof.
  unfold in_set.
  induction s as [|c' s IH]; cbn [set_of_str existsb list_ascii_of_string In].
  - split; [discriminate | tauto].
  - rewrite orb_true_iff, IH, String.eqb_eq. split.
    + intros [H|H]; [left; congruence | right; exact H].
    + intros [H|H]; [left; congruence | right; exact H].
Qed.

Lemma conflicts_formula (a b : Row) :
  conflicts a b = same_slot a b && terms_overlap a b && days_overlap a b.
Proof.
  unfold conflicts, same_slot, terms_overlap, days_overlap, on_day.
  rewrite !(in_set_composite "MW"), !(in_set_composite "TR")
    by (simpl; discriminate).
  generalize (String.eqb (Time a) (Time b)) (String.eqb (Term a) (Term b))
             (String.eqb (Term a) "Full" && str_in_list (Term b) quarters)
             (String.eqb (Term b) "Full" && str_in_list (Term a) quarters)
             (in_set "M" (set_of_str (Days a))) (in_set "M" (set_of_str (Days b)))
             (in_set "W" (set_of_str (Days a))) (in_set "W" (set_of_str (Days b)))
             (in_set "T" (set_of_str (Days a))) (in_set "T" (set_of_str (Days b)))
             (in_set "R" (set_of_str (Days a))) (in_set "R" (set_of_str (Days b))).
  intros [] [] [] [] [] [] [] [] [] [] [] []; reflexivity.
Qed.

Lemma same_slot_sym (a b : Row) : same_slot a b = same_slot b a.
Proof. apply String.eqb_sym. Qed.

Lemma terms_overlap_sym (a b : Row) : terms_overlap a b = terms_overlap b a.
Proof.
  unfold terms_overlap. rewrite (String.eqb_sym (Term a) (Term b)).
  rewrite <- !orb_assoc. f_equal. apply orb_comm.
Qed.

Lemma days_overlap_sym (a b : Row) : days_overlap a b = days_overlap b a.
Proof.
  unfold days_overlap.
  rewrite (andb_comm (on_day "M" a)), (andb_comm (on_day "W" a)),
          (andb_comm (on_day "T" a)), (andb_comm (on_day "R" a)).
  reflexivity.
Qed.

(** C3. The pairwise conflict predicate is symmetric: for all rows [a] and
    [b], [conflicts a b] and [conflicts b a] are the same boolean. *)
Theorem conflicts_symmetric (a b : Row) : conflicts a b = conflicts b a.
Proof.
  rewrite !conflicts_formula.
  now rewrite same_slot_sym, terms_overlap_sym, days_overlap_sym.
Qed.

Lemma str_in_list_In (x : string) (l : list string) :
  str_in_list x l = true <-> In x l.
Proof.
  unfold str_in_list. rewrite existsb_exists. split.
  - intros [y [Hy E]]. apply String.eqb_eq in E. now subst.
  - intros H. exists x. split; [exact H | apply String.eqb_refl].
Qed.

Lemma days_overlap_same_days (a b : Row) :
  Days a = Days b -> days_overlap a b = meets_MWTR a.
Proof.
  intros E. unfold days_overlap, meets_MWTR, on_day. rewrite <- E.
  now rewrite !andb_diag.
Qed.

(** The value of [conflicts] on two rows with identical [Time] and
    identical [Days], by their terms. *)
Lemma conflicts_same_slot_same_days (a b : Row)
  (Htime : Time a = Time b) (Hdays : Days a = Days b) :
  (In (Term a) quarters -> In (Term b) quarters -> Term a <> Term b ->
   conflicts a b = false)
  /\ ((Term a = "Full" /\ In (Term b) quarters)
      \/ (Term b = "Full" /\ In (Term a) quarters) ->
      conflicts a b = meets_MWTR a).
Proof.
  rewrite conflicts_formula, (days_overlap_same_days a b Hdays).
  unfold same_slot, terms_overlap. rewrite Htime, String.eqb_refl.
  split.
  - intros Ha Hb Hne.
    apply String.eqb_neq in Hne. rewrite Hne.
    assert (Fa : String.eqb (Term a) "Full" = false).
    { apply String.eqb_neq. intros E. rewrite E in Ha.
      simpl in Ha. intuition discriminate. }
    assert (Fb : String.eqb (Term b) "Full" = false).
    { apply String.eqb_neq. intros E. rewrite E in Hb.
      simpl in Hb. intuition discriminate. }
    now rewrite Fa, Fb.
  - intros [[Ea Hb]|[Eb Ha]].
    + apply str_in_list_In in Hb. rewrite Ea, Hb. simpl.
      now rewrite orb_true_r.
    + apply str_in_list_In in Ha. rewrite Eb, Ha. simpl.
      now rewrite !orb_true_r.
Qed.

(** C4. For two section records with identical [Time] and identical
    [Days], a section record being one that meets on at least one of the
    days M, W, T, R: if their terms are two distinct quarters, [conflicts]
    is false; if one term is ['Full'] and the other a quarter, [conflicts]
    is true. *)
Theorem conflicts_quarters_and_full (a b : Row)
        (Htime : Time a = Time b) (Hdays : Days a = Days b)
        (Hmeets : meets_MWTR a = true) :
  (In (Term a) quarters -> In (Term b) quarters -> Term a <> Term b ->
   conflicts a b = false)
  /\ ((Term a = "Full" /\ In (Term b) quarters)
      \/ (Term b = "Full" /\ In (Term a) quarters) ->
      conflicts a b = true).
Proof.
  destruct (conflicts_same_slot_same_days a b Htime Hdays) as [Hq Hf].
  split; [exact Hq|].
  intros H. rewrite (Hf H). exact Hmeets.
Qed.

Lemma conflicts_quarters_and_full_witness :
  conflicts Sample.q1_MW Sample.q2_MW = false
  /\ conflicts Sample.full_MW Sample.q1_MW = true
  /\ conflicts Sample.q1_MW Sample.full_MW = true.
Proof.
  split; [|split].
  - apply (proj1 (conflicts_quarters_and_full Sample.q1_MW Sample.q2_MW
                    eq_refl eq_refl eq_refl)).
    + simpl; tauto.
    + simpl; tauto.
    + discriminate.
  - apply (proj2 (conflicts_quarters_and_full Sample.full_MW Sample.q1_MW
                    eq_refl eq_refl eq_refl)).
    left. split; [reflexivity | simpl; tauto].
  - apply (proj2 (conflicts_quarters_and_full Sample.q1_MW Sample.full_MW
                    eq_refl eq_refl eq_refl)).
    right. split; [reflexivity | simpl; tauto].
Defined.

(** Outside that domain the day tests find nothing: two rows whose [Days]
    hold none of M, W, T, R are reported as not conflicting whatever their
    terms. *)
Remark no_known_day_no_conflict :
  conflicts Sample.full_F Sample.q1_F = false.
Proof. reflexivity. Qed.

(** C5. There are rows [a] and [b] (same slot, same days, ['Full'] against
    ['Q1']) that conflict pairwise but carry different group keys; the
    assignment selecting both is feasible for the grouped model and
    infeasible for the pairwise model of the same two rows. *)
Theorem grouping_misses_full_vs_quarter :
  exists (a b : Row) (v : Assignment),
    Time a = Time b /\ Days a = Days b
    /\ Term a = "Full" /\ Term b = "Q1"
    /\ conflicts a b = true
    /\ get_group_id a <> get_group_id b
    /\ v (SectionID a) = 1 /\ v (SectionID b) = 1
    /\ feasibleb (CourseMatchV2.problem [a; b] 4 "1st Year") v = true
    /\ feasibleb (CourseMatch.problem [a; b] 4 "1st Year") v = false.
Proof.
  exists Sample.full_MW, Sample.q1_MW, Sample.all_selected.
  repeat split; try reflexivity.
  vm_compute. discriminate.
Qed.

(** C10. [conflicts a b] is true only if the [Days] strings of [a] and [b]
    share a character: the membership tests of the two-letter tokens
    ['MW'] and ['TR'] in the character sets are always false, and two rows
    whose [Days] share no character do not conflict, whatever their slots
    and terms. *)
Theorem conflicts_needs_common_day_char (a b : Row) :
  in_set "MW" (set_of_str (Days a)) = false
  /\ in_set "MW" (set_of_str (Days b)) = false
  /\ in_set "TR" (set_of_str (Days a)) = false
  /\ in_set "TR" (set_of_str (Days b)) = false
  /\ (conflicts a b = true ->
      exists c : ascii,
        In c (list_ascii_of_string (Days a))
        /\ In c (list_ascii_of_string (Days b)))
  /\ ((forall c : ascii,
         In c (list_ascii_of_string (Days a)) ->
         ~ In c (list_ascii_of_string (Days b))) ->
      conflicts a b = false).
Proof.
  assert (Hshare : conflicts a b = true ->
                   exists c : ascii,
                     In c (list_ascii_of_string (Days a))
                     /\ In c (list_ascii_of_string (Days b))).
  { rewrite conflicts_formula. unfold days_overlap, on_day.
    rewrite !andb_true_iff, !orb_true_iff, !andb_true_iff.
    intros [_ [[[[Ha Hb]|[Ha Hb]]|[Ha Hb]]|[Ha Hb]]];
      apply in_set_char in Ha; apply in_set_char in Hb;
      eexists; split; eassumption. }
  repeat split; try (apply in_set_composite; simpl; discriminate).
  - exact Hshare.
  - intros Hdisj. destruct (conflicts a b) eqn:E; [|reflexivity].
    destruct (Hshare eq_refl) as [c [Ha Hb]]. elim (Hdisj c Ha Hb).
Qed.

Lemma conflicts_needs_common_day_char_witness :
  conflicts Sample.full_MW Sample.full_TR = false.
Proof.
  apply (conflicts_needs_common_day_char Sample.full_MW Sample.full_TR).
  intros c Ha Hb. simpl in Ha, Hb.
  destruct Ha as [Ha|[Ha|[]]]; subst c;
    destruct Hb as [Hb|[Hb|[]]]; discriminate.
Defined.

(** * Feasible assignments of the models *)

Section Feasibility.

Variable v : Assignment.

Lemma feasible_constraint (p : LpProblem) (c : LpConstraint) :
  feasible p v -> In c (constraints p) -> value (lhs c) v <= rhs c.
Proof.
  unfold feasible, feasibleb. intros H Hc.
  apply andb_true_iff in H as [_ H].
  rewrite forallb_forall in H. specialize (H c Hc).
  unfold satisfies in H. now apply Qle_bool_iff.
Qed.

Lemma feasible_binary (p : LpProblem) (course_data : list Row) :
  variables p = course_vars course_data ->
  feasible p v ->
  forall row, In row course_data -> is_binary v (SectionID row) = true.
Proof.
  unfold feasible, feasibleb. intros Hv H row Hrow.
  apply andb_true_iff in H as [H _].
  rewrite forallb_forall in H. apply H.
  rewrite Hv. unfold course_vars. apply nodup_In.
  now apply in_map.
Qed.

Lemma binary_cases (x : LpVariable) :
  is_binary v x = true ->
  (Qeq_bool (v x) 1 = true /\ v x == 1)
  \/ (Qeq_bool (v x) 1 = false /\ v x == 0).
Proof.
  unfold is_binary. intros H.
  destruct (Qeq_bool (v x) 1) eqn:E1.
  - left. split; [reflexivity | now apply Qeq_bool_iff].
  - right. split; [reflexivity|].
    rewrite orb_false_r in H. now apply Qeq_bool_iff.
Qed.

(** On a binary assignment a weighted sum of row variables is the sum of
    the weights of the selected rows. *)
Lemma value_selected (f : Row -> Q) (rs : list Row) :
  (forall row, In row rs -> is_binary v (SectionID row) = true) ->
  value (map (fun row => (f row, SectionID row)) rs) v
  == total f (filter (is_selected v) rs).
Proof.
  induction rs as [|r rs IH]; intros Hb; simpl; [reflexivity|].
  assert (IH' := IH (fun row H => Hb row (or_intror H))).
  unfold is_selected at 1.
  destruct (binary_cases (SectionID r) (Hb r (or_introl eq_refl)))
    as [[E Hv]|[E Hv]]; rewrite E; simpl; rewrite IH', Hv; ring.
Qed.

Lemma value_lpSum_vars (rs : list Row) :
  (forall row, In row rs -> is_binary v (SectionID row) = true) ->
  value (lpSum_vars (map SectionID rs)) v
  == inject_Z (Z.of_nat (List.length (filter (is_selected v) rs))).
Proof.
  intros Hb. unfold lpSum_vars. rewrite map_map.
  rewrite (value_selected (fun _ => 1) rs Hb).
  induction (filter (is_selected v) rs) as [|r l IH].
  - reflexivity.
  - cbn [total List.length]. rewrite IH, Nat2Z.inj_succ.
    unfold Z.succ. rewrite inject_Z_plus. ring.
Qed.

Lemma selected_rows_filter (course_data : list Row) :
  selected_rows course_data v = filter (is_selected v) course_data.
Proof.
  unfold selected_rows, selected_courses. apply filter_ext_in.
  intros row Hrow. fold (is_selected v).
  destruct (is_selected v row) eqn:E.
  - apply str_in_list_In. apply in_map. apply filter_In. now split.
  - destruct (str_in_list _ _) eqn:E'; [|reflexivity].
    apply str_in_list_In, in_map_iff in E' as [r' [Hid Hr']].
    apply filter_In in Hr' as [_ Hr'].
    unfold is_selected in *. rewrite Hid in Hr'. congruence.
Qed.

End Feasibility.

(** * The dicts of lists built by the pages *)

Lemma dict_get_append (d : list (string * list LpVariable))
      (k k' : string) (x : LpVariable) :
  dict_get (dict_append d k x) k'
  = if String.eqb k k'
    then Some (match dict_get d k with
               | Some xs => xs ++ [x]
               | None => [x]
               end)
    else dict_get d k'.
Proof.
  induction d as [|[k0 xs] d IH]; simpl.
  - reflexivity.
  - destruct (String.eqb k0 k) eqn:E0; simpl.
    + apply String.eqb_eq in E0. subst k0.
      destruct (String.eqb k k'); reflexivity.
    + rewrite IH. destruct (String.eqb k k') eqn:E.
      * apply String.eqb_eq in E. subst k'. now rewrite E0.
      * reflexivity.
Qed.

Lemma dict_get_fold (key : Row -> string) (rs : list Row) :
  forall (d : list (string * list LpVariable)) (k : string),
    dict_get (fold_left (fun d row => dict_append d (key row) (SectionID row))
                        rs d) k
    = match map SectionID (filter (fun row => String.eqb (key row) k) rs) with
      | [] => dict_get d k
      | ids => Some (match dict_get d k with
                     | Some xs => xs
                     | None => []
                     end ++ ids)
      end.
Proof.
  induction rs as [|r rs IH]; intros d k; simpl; [reflexivity|].
  rewrite IH, dict_get_append.
  destruct (String.eqb (key r) k) eqn:E; simpl.
  - apply String.eqb_eq in E. subst k.
    destruct (map SectionID _) as [|i ids]; destruct (dict_get d (key r));
      simpl; rewrite <- ?app_assoc; reflexivity.
  - reflexivity.
Qed.

Lemma dict_get_In (d : list (string * list LpVariable))
      (k : string) (xs : list LpVariable) :
  dict_get d k = Some xs -> In (k, xs) d.
Proof.
  induction d as [|[k0 ys] d IH]; simpl; [discriminate|].
  destruct (String.eqb k0 k) eqn:E.
  - apply String.eqb_eq in E. intros [= ->]. left. now subst.
  - intros H. right. now apply IH.
Qed.

(** The entry of a key that some row carries lists the variables of exactly
    the rows with that key, in table order. *)
Lemma group_by_entry (key : Row -> string) (course_data : list Row)
      (row : Row) :
  In row course_data ->
  In (key row,
      map SectionID
          (filter (fun r => String.eqb (key r) (key row)) course_data))
     (group_by key course_data).
Proof.
  intros Hrow. apply dict_get_In. unfold group_by.
  rewrite dict_get_fold. simpl.
  destruct (map SectionID _) as [|i ids] eqn:E; [|reflexivity].
  apply map_eq_nil in E.
  assert (Hin : In row (filter (fun r => String.eqb (key r) (key row))
                               course_data)).
  { apply filter_In. split; [exact Hrow | apply String.eqb_refl]. }
  rewrite E in Hin. destruct Hin.
Qed.

Lemma filter_and {A : Type} (p q : A -> bool) (l : list A) :
  filter (fun x => p x && q x) l = filter q (filter p l).
Proof.
  induction l as [|x l IH]; simpl; [reflexivity|].
  destruct (p x); simpl; [destruct (q x)|]; now rewrite IH.
Qed.

(** ** Membership of the named constraints in the two models *)

Lemma budget_in_problems (course_data : list Row) (credit_limit : Q)
      (student_year : string) (c : LpConstraint) :
  c = BudgetConstraint course_data (budget_of student_year) ->
  In c (constraints (CourseMatch.problem course_data credit_limit student_year))
  /\ In c (constraints
             (CourseMatchV2.problem course_data credit_limit student_year)).
Proof. intros ->. split; left; reflexivity. Qed.

Lemma credit_in_problems (course_data : list Row) (credit_limit : Q)
      (student_year : string) (c : LpConstraint) :
  c = CreditLimitConstraint course_data credit_limit ->
  In c (constraints (CourseMatch.problem course_data credit_limit student_year))
  /\ In c (constraints
             (CourseMatchV2.problem course_data credit_limit student_year)).
Proof.
  intros ->. split; right; rewrite !in_app_iff; right; right; right;
    left; reflexivity.
Qed.

Lemma one_section_in_problems (course_data : list Row) (credit_limit : Q)
      (student_year : string) (c : LpConstraint) :
  In c (OneSectionPerCourse course_data) ->
  In c (constraints (CourseMatch.problem course_data credit_limit student_year))
  /\ In c (constraints
             (CourseMatchV2.problem course_data credit_limit student_year)).
Proof.
  intros H. split; right; rewrite !in_app_iff; right; left; exact H.
Qed.

Lemma exclusive_in_problems (course_data : list Row) (credit_limit : Q)
      (student_year : string) (c : LpConstraint) :
  In c (ExclusiveConstraints course_data) ->
  In c (constraints (CourseMatch.problem course_data credit_limit student_year))
  /\ In c (constraints
             (CourseMatchV2.problem course_data credit_limit student_year)).
Proof.
  intros H. split; right; rewrite !in_app_iff; right; right; left; exact H.
Qed.

Lemma page_constraint (course_data : list Row) (credit_limit : Q)
      (student_year : string) (v : Assignment) (c : LpConstraint) :
  feasible_in_a_page course_data credit_limit student_year v ->
  In c (constraints (CourseMatch.problem course_data credit_limit student_year))
  /\ In c (constraints
             (CourseMatchV2.problem course_data credit_limit student_year)) ->
  value (lhs c) v <= rhs c.
Proof.
  intros [H|H] [H1 H2]; eapply feasible_constraint; eassumption.
Qed.

Lemma page_binary (course_data : list Row) (credit_limit : Q)
      (student_year : string) (v : Assignment) :
  feasible_in_a_page course_data credit_limit student_year v ->
  forall row, In row course_data -> is_binary v (SectionID row) = true.
Proof.
  intros [H|H]; eapply feasible_binary; try eassumption; reflexivity.
Qed.

(** A constraint [lpSum(xs) <= 1] for every entry of a dict built by
    [group_by] leaves at most one selected row per key. *)
Lemma at_most_one_per_key (key : Row -> string) (course_data : list Row)
      (v : Assignment) (k : string) :
  (forall row, In row course_data -> is_binary v (SectionID row) = true) ->
  (forall k' xs, In (k', xs) (group_by key course_data) ->
                 value (lpSum_vars xs) v <= 1) ->
  (List.length
     (filter (fun row => String.eqb (key row) k && is_selected v row)
             course_data) <= 1)%nat.
Proof.
  intros Hbin Hle. rewrite filter_and.
  destruct (filter (fun row => String.eqb (key row) k) course_data)
    as [|r rest] eqn:E; [simpl; lia|].
  assert (Hr : In r (filter (fun row => String.eqb (key row) k) course_data))
    by (rewrite E; now left).
  apply filter_In in Hr as [Hr Hk]. apply String.eqb_eq in Hk.
  rewrite <- E. clear E rest. subst k.
  specialize (Hle _ _ (group_by_entry key course_data r Hr)).
  rewrite value_lpSum_vars in Hle.
  - change 1 with (inject_Z 1) in Hle. rewrite <- Zle_Qle in Hle. lia.
  - intros row Hrow. apply Hbin. apply filter_In in Hrow. tauto.
Qed.

(** ** What each conflict strategy enforces *)

Lemma iterrows_nth (course_data : list Row) (i : nat) (a : Row) :
  nth_error course_data i = Some a -> In (i, a) (iterrows course_data).
Proof.
  unfold iterrows. change i with (0 + i)%nat at 2. generalize 0%nat.
  revert i. induction course_data as [|r rs IH]; intros [|i] s H;
    try discriminate.
  - injection H as ->. left. now rewrite Nat.add_0_r.
  - right. simpl in H. rewrite <- Nat.add_succ_comm. now apply IH.
Qed.

(** Pairwise strategy: two rows that [conflicts] reports are never both
    selected. *)
Lemma pairwise_conflict_enforced (course_data : list Row) (credit_limit : Q)
      (student_year : string) (v : Assignment) (i j : nat) (a b : Row) :
  feasible (CourseMatch.problem course_data credit_limit student_year) v ->
  nth_error course_data i = Some a ->
  nth_error course_data j = Some b ->
  (i < j)%nat ->
  conflicts a b = true ->
  v (SectionID a) + v (SectionID b) <= 1.
Proof.
  intros Hf Ha Hb Hij Hc.
  assert (Hin : In (CourseMatch.Conflict i j a b)
                   (CourseMatch.ConflictConstraints course_data)).
  { unfold CourseMatch.ConflictConstraints. apply in_flat_map.
    exists (i, a). split; [now apply iterrows_nth|].
    apply in_flat_map. exists (j, b). split; [now apply iterrows_nth|].
    assert (E : (j <=? i)%nat = false) by (apply Nat.leb_gt; exact Hij).
    rewrite E, Hc. now left. }
  assert (Hle := feasible_constraint v _ (CourseMatch.Conflict i j a b) Hf).
  simpl in Hle. rewrite in_app_iff in Hle.
  specialize (Hle (or_intror (or_introl Hin))). lra.
Qed.

(** Grouped strategy: of the rows that share a group key at most one is
    selected; rows with different keys are not constrained by it. *)
Lemma group_enforced (course_data : list Row) (credit_limit : Q)
      (student_year : string) (v : Assignment) (group_id : string) :
  feasible (CourseMatchV2.problem course_data credit_limit student_year) v ->
  (List.length
     (filter (fun row => String.eqb (get_group_id row) group_id
                         && is_selected v row)
             course_data) <= 1)%nat.
Proof.
  intros Hf. apply at_most_one_per_key.
  - exact (feasible_binary v
             (CourseMatchV2.problem course_data credit_limit student_year)
             course_data eq_refl Hf).
  - intros k xs Hk.
    apply (feasible_constraint v _
             (mkConstraint (lpSum_vars xs) 1
                           (String.append "GroupConstraint_" k)) Hf).
    simpl. right. rewrite in_app_iff. left.
    unfold CourseMatchV2.GroupConstraints. apply in_map_iff.
    exists (k, xs). split; [reflexivity | exact Hk].
Qed.

(** * Invariants of the returned selection *)

(** C1. For every assignment that is feasible for the model of either page,
    the prices of the selected rows sum to at most the budget the model was
    built with, which is 4400 for ['1st Year'] and 5500 for ['2nd Year']. *)
Theorem budget_invariant (course_data : list Row) (credit_limit : Q)
        (student_year : string) (v : Assignment)
        (Hfeasible : feasible_in_a_page course_data credit_limit
                                        student_year v) :
  total Price (selected_rows course_data v) <= budget_of student_year
  /\ budget_of "1st Year" = 4400
  /\ budget_of "2nd Year" = 5500.
Proof.
  split; [|split; reflexivity].
  rewrite selected_rows_filter.
  rewrite <- (value_selected v Price course_data
                (page_binary _ _ _ _ Hfeasible)).
  exact (page_constraint _ _ _ _ _ Hfeasible
           (budget_in_problems course_data credit_limit student_year _
              eq_refl)).
Qed.

Lemma budget_invariant_witness :
  total Price (selected_rows [Sample.full_MW; Sample.full_TR]
                             Sample.all_selected) <= 4400.
Proof.
  apply (budget_invariant [Sample.full_MW; Sample.full_TR] 4 "1st Year"
                          Sample.all_selected).
  left. vm_compute. reflexivity.
Defined.

(** C2. In every assignment that is feasible for the model of either page,
    and for every course name, at most one row of the table bearing that
    name in its ['Section'] column has its variable at 1. *)
Theorem one_section_per_course (course_data : list Row) (credit_limit : Q)
        (student_year : string) (v : Assignment) (course_name : string)
        (Hfeasible : feasible_in_a_page course_data credit_limit
                                        student_year v) :
  (List.length
     (filter (fun row => String.eqb (Section_ row) course_name
                         && is_selected v row)
             course_data) <= 1)%nat.
Proof.
  apply at_most_one_per_key.
  - exact (page_binary _ _ _ _ Hfeasible).
  - intros k xs Hk.
    apply (page_constraint _ _ _ _
             (mkConstraint (lpSum_vars xs) 1
                           (String.append "OneSectionPerCourse_" k))
             Hfeasible).
    apply one_section_in_problems.
    unfold OneSectionPerCourse, course_sections. apply in_map_iff.
    exists (k, xs). split; [reflexivity | exact Hk].
Qed.

Lemma one_section_per_course_witness :
  (List.length
     (filter (fun row => String.eqb (Section_ row) "ACCT6110"
                         && is_selected (Sample.only "A1") row)
             [Sample.full_MW; Sample.full_F]) <= 1)%nat.
Proof.
  apply (one_section_per_course [Sample.full_MW; Sample.full_F] 4 "1st Year"
                                (Sample.only "A1") "ACCT6110").
  left. vm_compute. reflexivity.
Defined.

Lemma total_nonneg (f : Row -> Q) (rs : list Row) :
  (forall row, In row rs -> 0 <= f row) -> 0 <= total f rs.
Proof.
  induction rs as [|r rs IH]; intros H; simpl; [lra|].
  pose proof (H r (or_introl eq_refl)).
  pose proof (IH (fun row Hr => H row (or_intror Hr))). lra.
Qed.

Lemma total_zero (f : Row -> Q) (rs : list Row) :
  (forall row, In row rs -> 0 <= f row) ->
  total f rs <= 0 ->
  forall row, In row rs -> f row == 0.
Proof.
  induction rs as [|r rs IH]; intros Hpos Hle row Hrow; [destruct Hrow|].
  simpl in Hle.
  pose proof (Hpos r (or_introl eq_refl)) as Hr.
  pose proof (total_nonneg f rs (fun x Hx => Hpos x (or_intror Hx))) as Hrs.
  destruct Hrow as [<-|Hrow].
  - lra.
  - apply IH; [intros x Hx; apply Hpos; now right | lra | exact Hrow].
Qed.

(** X22. With [credit_limit = 0] and no negative [Credits] in the table,
    every row selected by a feasible assignment of either page's model has
    [Credits] equal to 0, whatever the utilities; in particular the
    selection is empty when every row has positive [Credits]. *)
Theorem zero_credit_limit (course_data : list Row) (student_year : string)
        (v : Assignment)
        (Hcredits : forall row, In row course_data -> 0 <= Credits row)
        (Hfeasible : feasible_in_a_page course_data 0 student_year v) :
  (forall row, In row (selected_rows course_data v) -> Credits row == 0)
  /\ ((forall row, In row course_data -> 0 < Credits row) ->
      selected_rows course_data v = []
      /\ selected_courses course_data v = []).
Proof.
  assert (Hsel : forall row, In row (selected_rows course_data v) ->
                             Credits row == 0).
  { rewrite selected_rows_filter. apply total_zero.
    - intros row Hrow. apply filter_In in Hrow as [Hrow _]. now apply Hcredits.
    - rewrite <- (value_selected v Credits course_data
                    (page_binary _ _ _ _ Hfeasible)).
      exact (page_constraint _ _ _ _ _ Hfeasible
               (credit_in_problems course_data 0 student_year _ eq_refl)). }
  split; [exact Hsel|].
  intros Hpos.
  assert (Hnil : selected_rows course_data v = []).
  { destruct (selected_rows course_data v) as [|r rs] eqn:E; [reflexivity|].
    pose proof (Hsel r (or_introl eq_refl)) as H0.
    assert (Hr : In r (selected_rows course_data v)) by (rewrite E; now left).
    rewrite selected_rows_filter in Hr. apply filter_In in Hr as [Hr _].
    pose proof (Hpos r Hr). lra. }
  split; [exact Hnil|].
  rewrite selected_rows_filter in Hnil.
  unfold selected_courses. fold (is_selected v). now rewrite Hnil.
Qed.

Lemma zero_credit_limit_witness :
  Credits Sample.no_credit == 0
  /\ selected_courses [Sample.full_MW; Sample.q1_MW] Sample.none_selected
     = [].
Proof.
  split.
  - refine (proj1 (zero_credit_limit [Sample.no_credit; Sample.full_MW]
                     "1st Year" (Sample.only "Z1") _ _)
                  Sample.no_credit _).
    + intros row [<-|[<-|[]]]; vm_compute; discriminate.
    + left. vm_compute. reflexivity.
    + vm_compute. now left.
  - refine (proj2 (proj2 (zero_credit_limit [Sample.full_MW; Sample.q1_MW]
                            "2nd Year" Sample.none_selected _ _) _)).
    + intros row [<-|[<-|[]]]; vm_compute; discriminate.
    + left. vm_compute. reflexivity.
    + intros row [<-|[<-|[]]]; vm_compute; reflexivity.
Defined.

(** What the model leaves open at [credit_limit = 0]: an assignment that
    selects a section carrying no credit is optimal, as is the empty one;
    which of them [problem.solve()] returns is the solver's choice. *)
Remark zero_credit_section_may_be_selected :
  optimal (CourseMatch.problem [Sample.no_credit] 0 "1st Year")
          Sample.all_selected
  /\ optimal (CourseMatch.problem [Sample.no_credit] 0 "1st Year")
             Sample.none_selected
  /\ selected_courses [Sample.no_credit] Sample.all_selected = ["Z1"]
  /\ selected_courses [Sample.no_credit] Sample.none_selected = [].
Proof.
  repeat split; try (vm_compute; reflexivity); intros v' _; simpl; lra.
Qed.

(** * Exclusivity groups *)

Lemma course_group_vars_rows (course_data : list Row)
      (course_group : list string) :
  course_group_vars course_data course_group
  = map SectionID (rows_of_group course_data course_group).
Proof.
  unfold course_group_vars, rows_of_group.
  induction course_group as [|c g IH]; simpl; [reflexivity|].
  now rewrite map_app, IH.
Qed.

Lemma rows_of_group_in (course_data : list Row) (course_group : list string)
      (row : Row) :
  In row (rows_of_group course_data course_group) -> In row course_data.
Proof.
  unfold rows_of_group. rewrite in_flat_map.
  intros [c [_ H]]. apply filter_In in H. tauto.
Qed.

Lemma count_or (p q s : Row -> bool) (rs : list Row) :
  (List.length (filter (fun r => (p r || q r) && s r) rs)
   <= List.length (filter s (filter p rs))
      + List.length (filter (fun r => q r && s r) rs))%nat.
Proof.
  induction rs as [|r rs IH]; simpl; [lia|].
  destruct (p r), (q r); simpl; destruct (s r); simpl; lia.
Qed.

(** The selected rows whose course is in a group are no more than the
    selected entries of the group's variable list. *)
Lemma group_count (s : Row -> bool) (course_data : list Row)
      (course_group : list string) :
  (List.length
     (filter (fun r => str_in_list (Section_ r) course_group && s r)
             course_data)
   <= List.length (filter s (rows_of_group course_data course_group)))%nat.
Proof.
  unfold rows_of_group.
  induction course_group as [|c g IH]; simpl.
  - induction course_data as [|r rs IHr]; simpl; [lia | exact IHr].
  - rewrite filter_app, length_app.
    pose proof (count_or (fun r => String.eqb (Section_ r) c)
                         (fun r => str_in_list (Section_ r) g) s course_data).
    unfold str_in_list in *. lia.
Qed.

Lemma unmatched_group_vars (course_data : list Row)
      (course_group : list string) :
  (forall row, In row course_data ->
               str_in_list (Section_ row) course_group = false) ->
  course_group_vars course_data course_group = [].
Proof.
  intros H. rewrite course_group_vars_rows.
  destruct (rows_of_group course_data course_group) as [|r rs] eqn:E;
    [reflexivity|].
  assert (Hr : In r (rows_of_group course_data course_group))
    by (rewrite E; now left).
  unfold rows_of_group in Hr. apply in_flat_map in Hr as [c [Hc Hr]].
  apply filter_In in Hr as [Hr Hname]. apply String.eqb_eq in Hname.
  specialize (H r Hr).
  assert (str_in_list (Section_ r) course_group = true)
    by (apply str_in_list_In; now rewrite Hname).
  congruence.
Qed.

(** C9. The exclusivity groups are the two constant lists of the pages.
    In every assignment that is feasible for the model of either page, and
    for each group, at most one row whose course name is in the group has
    its variable at 1; for ['MGMT6110'] and ['MGMT6120'] in particular.
    A group none of whose course names occurs in the table contributes the
    constraint [0 <= 1], which every assignment satisfies. *)
Theorem exclusive_groups (course_data : list Row) (credit_limit : Q)
        (student_year : string) (v : Assignment)
        (Hfeasible : feasible_in_a_page course_data credit_limit
                                        student_year v) :
  exclusive_courses = [ ["MGMT6110"; "MGMT6120"]; ["COURSE_X1"; "COURSE_X2"] ]
  /\ (forall course_group, In course_group exclusive_courses ->
        (List.length
           (filter (fun row => str_in_list (Section_ row) course_group
                               && is_selected v row)
                   course_data) <= 1)%nat)
  /\ (List.length
        (filter (fun row => str_in_list (Section_ row)
                                        ["MGMT6110"; "MGMT6120"]
                            && is_selected v row)
                course_data) <= 1)%nat
  /\ (forall course_group, In course_group exclusive_courses ->
        (forall row, In row course_data ->
                     str_in_list (Section_ row) course_group = false) ->
        lhs (ExclusiveConstraint course_data course_group) = []
        /\ rhs (ExclusiveConstraint course_data course_group) = 1
        /\ forall v' : Assignment,
             satisfies v' (ExclusiveConstraint course_data course_group)
             = true).
Proof.
  assert (Hgroup : forall course_group, In course_group exclusive_courses ->
            (List.length
               (filter (fun row => str_in_list (Section_ row) course_group
                                   && is_selected v row)
                       course_data) <= 1)%nat).
  { intros g Hg.
    assert (Hc : In (ExclusiveConstraint course_data g)
                    (ExclusiveConstraints course_data))
      by (unfold ExclusiveConstraints; now apply in_map).
    pose proof (page_constraint _ _ _ _ _ Hfeasible
                  (exclusive_in_problems course_data credit_limit
                     student_year _ Hc)) as Hle.
    simpl in Hle. rewrite course_group_vars_rows, value_lpSum_vars in Hle.
    - change 1 with (inject_Z 1) in Hle. rewrite <- Zle_Qle in Hle.
      pose proof (group_count (is_selected v) course_data g). lia.
    - intros row Hrow. apply (page_binary _ _ _ _ Hfeasible).
      eapply rows_of_group_in; eassumption. }
  split; [reflexivity|]. split; [exact Hgroup|].
  split; [apply Hgroup; left; reflexivity|].
  intros g _ Hnone. unfold ExclusiveConstraint, satisfies. simpl.
  rewrite (unmatched_group_vars course_data g Hnone).
  repeat split.
Qed.

Lemma exclusive_groups_witness :
  (List.length
     (filter (fun row => str_in_list (Section_ row) ["MGMT6110"; "MGMT6120"]
                         && is_selected (Sample.only "M1") row)
             [Sample.mgmt_6110; Sample.mgmt_6120; Sample.full_MW]) <= 1)%nat
  /\ satisfies Sample.all_selected
               (ExclusiveConstraint
                  [Sample.mgmt_6110; Sample.mgmt_6120; Sample.full_MW]
                  ["COURSE_X1"; "COURSE_X2"]) = true.
Proof.
  assert (Hfeasible :
            feasible_in_a_page
              [Sample.mgmt_6110; Sample.mgmt_6120; Sample.full_MW]
              4 "1st Year" (Sample.only "M1"))
    by (left; vm_compute; reflexivity).
  pose proof (exclusive_groups _ _ _ _ Hfeasible) as [_ [_ [Hmgmt Hvac]]].
  split; [exact Hmgmt|].
  apply Hvac.
  - right. left. reflexivity.
  - intros row [<-|[<-|[<-|[]]]]; reflexivity.
Defined.

(** * The result assembler *)

Lemma column_sum_Price (rs : list Row) :
  column_sum (map with_weighted_utility rs) "Price" = total Price rs.
Proof.
  induction rs as [|r rs IH]; [reflexivity|].
  cbn [map total]. rewrite <- IH. reflexivity.
Qed.

Lemma column_sum_Credits (rs : list Row) :
  column_sum (map with_weighted_utility rs) "Credits" = total Credits rs.
Proof.
  induction rs as [|r rs IH]; [reflexivity|].
  cbn [map total]. rewrite <- IH. reflexivity.
Qed.

Lemma column_sum_Weighted_Utility (rs : list Row) :
  column_sum (map with_weighted_utility rs) "Weighted Utility"
  = total (fun r => Utility r * Credits r) rs.
Proof.
  induction rs as [|r rs IH]; [reflexivity|].
  cbn [map total]. rewrite <- IH. reflexivity.
Qed.

(** X23. The assembled table is the selected rows followed by exactly one
    more row, the dict [summary_data].  That row has ['SectionID'] equal to
    ['Total']; its ['Price'], ['Credits'] and ['Weighted Utility'] are the
    sums of those columns over the selected rows; under the keys
    ['Course Name'], ['Instructor'], ['Days'], ['Time'] and ['Utility'] it
    holds the empty string, so it carries no sum of raw utilities.  With
    no row selected the table is that row alone and its three totals
    are 0. *)
Theorem summary_row_appended (course_data : list Row) (v : Assignment) :
  exists summary : Series,
    rows (assemble course_data v)
    = map with_weighted_utility (selected_rows course_data v) ++ [summary]
    /\ List.length (rows (assemble course_data v))
       = S (List.length (selected_rows course_data v))
    /\ cell summary "SectionID" = CStr "Total"
    /\ cell summary "Price" = CNum (total Price (selected_rows course_data v))
    /\ cell summary "Credits"
       = CNum (total Credits (selected_rows course_data v))
    /\ cell summary "Weighted Utility"
       = CNum (total (fun r => Utility r * Credits r)
                     (selected_rows course_data v))
    /\ cell summary "Course Name" = CStr ""
    /\ cell summary "Instructor" = CStr ""
    /\ cell summary "Days" = CStr ""
    /\ cell summary "Time" = CStr ""
    /\ cell summary "Utility" = CStr ""
    /\ (selected_rows course_data v = [] ->
        rows (assemble course_data v) = [summary]
        /\ cell summary "Price" = CNum 0
        /\ cell summary "Credits" = CNum 0
        /\ cell summary "Weighted Utility" = CNum 0).
Proof.
  exists (summary_data (selected_courses_data course_data v)).
  unfold assemble, df_append, selected_courses_data, summary_data.
  cbn [rows cell String.eqb Ascii.eqb Bool.eqb].
  rewrite column_sum_Price, column_sum_Credits, column_sum_Weighted_Utility.
  repeat split.
  - now rewrite length_app, length_map, Nat.add_1_r.
  - now rewrite H.
  - now rewrite H.
  - now rewrite H.
  - now rewrite H.
Qed.

Lemma summary_row_appended_witness :
  exists summary : Series,
    rows (assemble [] Sample.none_selected) = [summary]
    /\ cell summary "Price" = CNum 0
    /\ cell summary "Credits" = CNum 0
    /\ cell summary "Weighted Utility" = CNum 0.
Proof.
  destruct (summary_row_appended [] Sample.none_selected)
    as [summary [_ [_ [_ [_ [_ [_ [_ [_ [_ [_ [_ Hempty]]]]]]]]]]]].
  exists summary. apply Hempty. reflexivity.
Defined.

(** C8. The summary row does not hold a blank course name.  Its blank is
    keyed ['Course Name'], a label of no column of the table: on a table
    with one selected row, the summary row reads a missing value both under
    ['Section'], the column of the course names, and under ['Course_Name'],
    the label the final selection asks for, while the row above it holds
    its course name; and the final selection raises [KeyError], so no
    table with a summary row is produced. *)
Theorem summary_course_name_not_blank :
  exists (selected summary : Series),
    rows (assemble [Sample.full_MW; Sample.q1_MW] (Sample.only "A1"))
    = [selected; summary]
    /\ cell selected "Section" = CStr "ACCT6110"
    /\ cell summary "SectionID" = CStr "Total"
    /\ cell summary "Course Name" = CStr ""
    /\ cell summary "Section" = NaN
    /\ cell summary "Course_Name" = NaN
    /\ str_in_list "Course Name" course_columns = false
    /\ displayed [Sample.full_MW; Sample.q1_MW] (Sample.only "A1") = None.
Proof.
  eexists _, _. split; [reflexivity|]. repeat split.
Qed.

(** The same holds of every table with just the nine columns the pages
    read: ['Course_Name'] is no column of the assembled frame and the
    selection raises [KeyError]. *)
Remark displayed_KeyError (course_data : list Row) (v : Assignment) :
  str_in_list "Course_Name" (columns (assemble course_data v)) = false
  /\ str_in_list "Course Name" (columns (assemble course_data v)) = true
  /\ displayed course_data v = None.
Proof. repeat split. Qed.

(** * Further properties of the two models *)

(** X1. Credit invariant: for every assignment that is feasible for the
    model of either page, the credits of the selected rows sum to at most
    the credit limit the model was built with. *)
Theorem credit_invariant (course_data : list Row) (credit_limit : Q)
        (student_year : string) (v : Assignment)
        (Hfeasible : feasible_in_a_page course_data credit_limit
                                        student_year v) :
  total Credits (selected_rows course_data v) <= credit_limit.
Proof.
  rewrite selected_rows_filter.
  rewrite <- (value_selected v Credits course_data
                (page_binary _ _ _ _ Hfeasible)).
  exact (page_constraint _ _ _ _ _ Hfeasible
           (credit_in_problems course_data credit_limit student_year _
              eq_refl)).
Qed.

Lemma credit_invariant_witness :
  total Credits (selected_rows [Sample.full_MW; Sample.full_TR]
                               Sample.all_selected) <= 4.
Proof.
  apply (credit_invariant [Sample.full_MW; Sample.full_TR] 4 "1st Year"
                          Sample.all_selected).
  right. vm_compute. reflexivity.
Defined.

(** X2. The table of selected rows holds exactly the rows of the input
    whose variable has value 1, in table order, and [selected_courses] is
    its ['SectionID'] column: going through the id list and [isin] neither
    adds nor loses a row, also when a [SectionID] occurs more than once. *)
Theorem selected_rows_spec (course_data : list Row) (v : Assignment) :
  selected_rows course_data v
  = filter (fun row => Qeq_bool (v (SectionID row)) 1) course_data
  /\ selected_courses course_data v
     = map SectionID (selected_rows course_data v)
  /\ forall row, In row (selected_rows course_data v)
                 <-> In row course_data /\ v (SectionID row) == 1.
Proof.
  pose proof (selected_rows_filter v course_data) as E.
  unfold is_selected in E. split; [exact E|]. split.
  - rewrite E. reflexivity.
  - intros row. rewrite E, filter_In, Qeq_bool_iff. reflexivity.
Qed.

(** X3. The objective value of a feasible assignment is the
    ['Weighted Utility'] total that the assembler writes into the summary
    row. *)
Theorem objective_is_weighted_utility_total
        (course_data : list Row) (credit_limit : Q) (student_year : string)
        (v : Assignment)
        (Hfeasible : feasible_in_a_page course_data credit_limit
                                        student_year v) :
  exists q : Q,
    cell (summary_data (selected_courses_data course_data v))
         "Weighted Utility" = CNum q
    /\ q == value (objective (CourseMatch.problem course_data credit_limit
                                                  student_year)) v
    /\ q == value (objective (CourseMatchV2.problem course_data credit_limit
                                                    student_year)) v.
Proof.
  exists (total (fun r => Utility r * Credits r)
                (selected_rows course_data v)).
  split.
  - unfold summary_data, selected_courses_data.
    cbn [rows cell String.eqb Ascii.eqb Bool.eqb].
    now rewrite column_sum_Weighted_Utility.
  - rewrite selected_rows_filter.
    pose proof (value_selected v (fun r => Utility r * Credits r) course_data
                  (page_binary _ _ _ _ Hfeasible)) as E.
    split; symmetry; exact E.
Qed.

Lemma objective_is_weighted_utility_total_witness :
  exists q : Q,
    cell (summary_data
            (selected_courses_data [Sample.full_MW; Sample.full_TR]
                                   Sample.all_selected))
         "Weighted Utility" = CNum q
    /\ q == 7.
Proof.
  destruct (objective_is_weighted_utility_total
              [Sample.full_MW; Sample.full_TR] 4 "1st Year"
              Sample.all_selected)
    as [q [Hcell [Hq _]]].
  - left. vm_compute. reflexivity.
  - exists q. split; [exact Hcell|]. rewrite Hq. reflexivity.
Defined.

(** ** The model is never infeasible for a credit limit of the widget *)

Lemma value_zero (e : LpAffineExpression) :
  value e (fun _ => 0) == 0.
Proof.
  induction e as [|[c x] e IH]; simpl; [reflexivity|]. rewrite IH. ring.
Qed.

Lemma all_zero_feasible (p : LpProblem) :
  (forall c, In c (constraints p) -> 0 <= rhs c) ->
  feasible p (fun _ => 0).
Proof.
  intros H. unfold feasible, feasibleb. apply andb_true_iff. split.
  - apply forallb_forall. intros x _. reflexivity.
  - apply forallb_forall. intros c Hc. unfold satisfies.
    apply Qle_bool_iff. rewrite value_zero. now apply H.
Qed.

Lemma budget_of_nonneg (student_year : string) : 0 <= budget_of student_year.
Proof.
  unfold budget_of. destruct (String.eqb student_year "1st Year");
    discriminate.
Qed.

Lemma shared_rhs_nonneg (course_data : list Row) (credit_limit : Q)
      (c : LpConstraint) :
  0 <= credit_limit ->
  In c (OneSectionPerCourse course_data
        ++ ExclusiveConstraints course_data
        ++ [CreditLimitConstraint course_data credit_limit]) ->
  0 <= rhs c.
Proof.
  intros Hcl. rewrite !in_app_iff. intros [H|[H|[<-|[]]]].
  - unfold OneSectionPerCourse in H. apply in_map_iff in H as [[k xs] [<- _]].
    discriminate.
  - unfold ExclusiveConstraints in H. apply in_map_iff in H as [g [<- _]].
    discriminate.
  - exact Hcl.
Qed.

Lemma zero_feasible_pairwise (course_data : list Row) (credit_limit : Q)
      (student_year : string) :
  0 <= credit_limit ->
  feasible (CourseMatch.problem course_data credit_limit student_year)
           (fun _ => 0).
Proof.
  intros Hlimit. apply all_zero_feasible. intros c [<-|Hc].
  - apply budget_of_nonneg.
  - apply in_app_iff in Hc as [Hc|Hc];
      [|now apply (shared_rhs_nonneg course_data credit_limit)].
    unfold CourseMatch.ConflictConstraints in Hc.
    apply in_flat_map in Hc as [[i a] [_ Hc]].
    apply in_flat_map in Hc as [[j b] [_ Hc]].
    destruct (j <=? i)%nat; [destruct Hc|].
    destruct (conflicts a b); [|destruct Hc].
    destruct Hc as [<-|[]]. discriminate.
Qed.

Lemma zero_feasible_grouped (course_data : list Row) (credit_limit : Q)
      (student_year : string) :
  0 <= credit_limit ->
  feasible (CourseMatchV2.problem course_data credit_limit student_year)
           (fun _ => 0).
Proof.
  intros Hlimit. apply all_zero_feasible. intros c [<-|Hc].
  - apply budget_of_nonneg.
  - apply in_app_iff in Hc as [Hc|Hc];
      [|now apply (shared_rhs_nonneg course_data credit_limit)].
    unfold CourseMatchV2.GroupConstraints in Hc.
    apply in_map_iff in Hc as [[k xs] [<- _]]. discriminate.
Qed.

(** X4. With a credit limit that is not negative, the assignment that
    selects nothing is feasible for the model of each page, for every
    table and year: the solver is never handed an infeasible model. *)
Theorem empty_selection_feasible (course_data : list Row) (credit_limit : Q)
        (student_year : string) (Hlimit : 0 <= credit_limit) :
  feasible (CourseMatch.problem course_data credit_limit student_year)
           (fun _ => 0)
  /\ feasible (CourseMatchV2.problem course_data credit_limit student_year)
              (fun _ => 0)
  /\ selected_rows course_data (fun _ => 0) = [].
Proof.
  split; [now apply zero_feasible_pairwise|].
  split; [now apply zero_feasible_grouped|].
  rewrite selected_rows_filter.
  induction course_data as [|r rs IH]; [reflexivity | exact IH].
Qed.

Lemma empty_selection_feasible_witness :
  feasible (CourseMatch.problem [Sample.full_MW; Sample.q1_MW] 0 "1st Year")
           (fun _ => 0).
Proof.
  apply (empty_selection_feasible [Sample.full_MW; Sample.q1_MW] 0 "1st Year").
  discriminate.
Defined.

(** X5. A negative credit limit is not rejected but makes the model
    infeasible: when no row has negative [Credits], no assignment satisfies
    the model of either page. *)
Theorem negative_credit_limit_infeasible
        (course_data : list Row) (credit_limit : Q) (student_year : string)
        (v : Assignment)
        (Hlimit : credit_limit < 0)
        (Hcredits : forall row, In row course_data -> 0 <= Credits row) :
  ~ feasible_in_a_page course_data credit_limit student_year v.
Proof.
  intros Hfeasible.
  pose proof (page_constraint _ _ _ _ _ Hfeasible
                (credit_in_problems course_data credit_limit student_year _
                   eq_refl)) as Hle.
  simpl in Hle.
  rewrite (value_selected v Credits course_data
             (page_binary _ _ _ _ Hfeasible)) in Hle.
  assert (0 <= total Credits (filter (is_selected v) course_data)).
  { apply total_nonneg. intros row Hrow. apply filter_In in Hrow as [Hrow _].
    now apply Hcredits. }
  lra.
Qed.

Lemma negative_credit_limit_infeasible_witness :
  ~ feasible_in_a_page [Sample.full_MW; Sample.q1_MW] (-1) "1st Year"
                       Sample.none_selected.
Proof.
  apply (negative_credit_limit_infeasible [Sample.full_MW; Sample.q1_MW]
                                          (-1) "1st Year").
  - reflexivity.
  - intros row [<-|[<-|[]]]; vm_compute; discriminate.
Defined.

(** ** The pairwise conflict predicate and its constraints *)

(** X6. What the six day tests of [conflicts] amount to: two rows conflict
    exactly when they have the same [Time], their terms are equal or one
    is ['Full'] and the other one of Q1..Q4, and one of the letters
    M, W, T, R occurs in both [Days] strings. *)
Theorem conflicts_iff (a b : Row) :
  conflicts a b = true
  <-> Time a = Time b
      /\ (Term a = Term b
          \/ (Term a = "Full" /\ In (Term b) quarters)
          \/ (Term b = "Full" /\ In (Term a) quarters))
      /\ exists c : ascii,
           In c ["M"; "W"; "T"; "R"]%char
           /\ In c (list_ascii_of_string (Days a))
           /\ In c (list_ascii_of_string (Days b)).
Proof.
  rewrite conflicts_formula.
  unfold same_slot, terms_overlap, days_overlap, on_day.
  rewrite !andb_true_iff, !orb_true_iff, !andb_true_iff.
  rewrite !in_set_char, !String.eqb_eq, !str_in_list_In.
  split.
  - intros [[Ht Hterm] Hd]. split; [exact Ht|]. split; [tauto|].
    destruct Hd as [[[[Ha Hb]|[Ha Hb]]|[Ha Hb]]|[Ha Hb]];
      eexists; (split; [|split; eassumption]); simpl; tauto.
  - intros [Ht [Hterm [c [Hc [Ha Hb]]]]]. split; [split; [exact Ht|tauto]|].
    simpl in Hc. destruct Hc as [<-|[<-|[<-|[<-|[]]]]]; tauto.
Qed.

Lemma iterrows_In (course_data : list Row) (i : nat) (a : Row) :
  In (i, a) (iterrows course_data) -> nth_error course_data i = Some a.
Proof.
  unfold iterrows.
  assert (G : forall (l : list Row) (s : nat),
             In (i, a) (combine (seq s (List.length l)) l) ->
             (s <= i)%nat /\ nth_error l (i - s) = Some a).
  { induction l as [|r rs IH]; intros s H; [destruct H|].
    simpl in H. destruct H as [H|H].
    - injection H as -> ->. split; [lia|]. now rewrite Nat.sub_diag.
    - apply IH in H as [Hle Hn]. split; [lia|].
      replace (i - s)%nat with (S (i - S s)) by lia. exact Hn. }
  intros H. apply G in H as [_ H]. now rewrite Nat.sub_0_r in H.
Qed.

Lemma conflict_constraints_In (course_data : list Row) (c : LpConstraint) :
  In c (CourseMatch.ConflictConstraints course_data)
  <-> exists (i j : nat) (a b : Row),
        nth_error course_data i = Some a
        /\ nth_error course_data j = Some b
        /\ (i < j)%nat
        /\ conflicts a b = true
        /\ c = CourseMatch.Conflict i j a b.
Proof.
  unfold CourseMatch.ConflictConstraints. split.
  - intros H. apply in_flat_map in H as [[i a] [Ha H]].
    apply in_flat_map in H as [[j b] [Hb H]].
    destruct (j <=? i)%nat eqn:E; [destruct H|].
    destruct (conflicts a b) eqn:Ec; [|destruct H].
    destruct H as [<-|[]].
    exists i, j, a, b. apply Nat.leb_gt in E.
    repeat split; auto using iterrows_In.
  - intros [i [j [a [b [Ha [Hb [Hij [Hc ->]]]]]]]].
    apply in_flat_map. exists (i, a). split; [now apply iterrows_nth|].
    apply in_flat_map. exists (j, b). split; [now apply iterrows_nth|].
    assert (E : (j <=? i)%nat = false) by (apply Nat.leb_gt; exact Hij).
    rewrite E, Hc. now left.
Qed.

(** Cutting a string at its first underscore. *)
Lemma split_at_separator (s1 : string) :
  forall s2 r1 r2 : string,
    ~ In "_"%char (list_ascii_of_string s1) ->
    ~ In "_"%char (list_ascii_of_string s2) ->
    (r1 = "" \/ exists r, r1 = String "_" r) ->
    (r2 = "" \/ exists r, r2 = String "_" r) ->
    String.append s1 r1 = String.append s2 r2 ->
    s1 = s2 /\ r1 = r2.
Proof.
  induction s1 as [|c s1 IH]; intros [|c' s2] r1 r2 H1 H2 Hr1 Hr2 E;
    simpl in *.
  - now split.
  - exfalso. destruct Hr1 as [->|[r ->]]; [discriminate|].
    injection E as <- _. tauto.
  - exfalso. destruct Hr2 as [->|[r ->]]; [discriminate|].
    injection E as -> _. tauto.
  - injection E as -> E.
    destruct (IH s2 r1 r2) as [-> ->]; tauto.
Qed.

Lemma str_of_nat_inj (n m : nat) : str_of_nat n = str_of_nat m -> n = m.
Proof.
  unfold str_of_nat. intros E.
  apply (f_equal NilEmpty.uint_of_string) in E.
  rewrite !NilEmpty.usu in E. injection E as E.
  now apply DecimalNat.Unsigned.to_uint_inj.
Qed.

Lemma string_of_uint_digits (d : Decimal.uint) :
  ~ In "_"%char (list_ascii_of_string (NilEmpty.string_of_uint d)).
Proof.
  induction d; simpl; intros H; try (destruct H as [H|H];
    [discriminate H | exact (IHd H)]). exact H.
Qed.

Lemma conflict_name_inj (i j i' j' : nat) (a b a' b' : Row) :
  cname (CourseMatch.Conflict i j a b)
  = cname (CourseMatch.Conflict i' j' a' b') ->
  i = i' /\ j = j'.
Proof.
  simpl. intros E. injection E as E.
  apply split_at_separator in E as [Ei Ej];
    try apply string_of_uint_digits; try (right; simpl; eauto).
  simpl in Ej. injection Ej as Ej.
  split; now apply str_of_nat_inj.
Qed.

Lemma NoDup_map_flat_map {A B C : Type} (g : B -> C) (f : A -> list B)
      (l : list A) :
  NoDup l ->
  (forall x, In x l -> NoDup (map g (f x))) ->
  (forall x y b b', In x l -> In y l -> In b (f x) -> In b' (f y) ->
                    g b = g b' -> x = y) ->
  NoDup (map g (flat_map f l)).
Proof.
  induction l as [|x l IH]; intros Hnd Hin Hdis; simpl; [constructor|].
  inversion Hnd as [|? ? Hx Hl]; subst.
  rewrite map_app. apply NoDup_app.
  - apply Hin. now left.
  - apply IH; [exact Hl | intros y Hy; apply Hin; now right|].
    intros y z b b' Hy Hz. apply Hdis; now right.
  - intros c Hc Hc'.
    apply in_map_iff in Hc as [b [<- Hb]].
    apply in_map_iff in Hc' as [b' [E Hb']].
    apply in_flat_map in Hb' as [y [Hy Hb']].
    assert (x = y)
      by (apply (Hdis x y b b'); auto; [now left | now right]).
    subst y. contradiction.
Qed.

Lemma iterrows_NoDup (course_data : list Row) : NoDup (iterrows course_data).
Proof.
  unfold iterrows. generalize 0%nat.
  induction course_data as [|r rs IH]; intros s; simpl; constructor.
  - intros H. apply in_combine_l, in_seq in H. lia.
  - apply IH.
Qed.

Lemma iterrows_functional (course_data : list Row) (i : nat) (a a' : Row) :
  In (i, a) (iterrows course_data) -> In (i, a') (iterrows course_data) ->
  a = a'.
Proof.
  intros H H'. apply iterrows_In in H, H'. congruence.
Qed.

Lemma conflict_names_NoDup (course_data : list Row) :
  NoDup (map cname (CourseMatch.ConflictConstraints course_data)).
Proof.
  unfold CourseMatch.ConflictConstraints.
  apply NoDup_map_flat_map; [apply iterrows_NoDup | |].
  - intros [i a] Hia.
    apply NoDup_map_flat_map; [apply iterrows_NoDup | |].
    + intros [j b] _. destruct (j <=? i)%nat; [constructor|].
      destruct (conflicts a b); simpl; repeat constructor. intros [].
    + intros [j b] [j' b'] c c' Hj Hj' Hc Hc' E.
      destruct (j <=? i)%nat; [destruct Hc|].
      destruct (conflicts a b); [|destruct Hc].
      destruct (j' <=? i)%nat; [destruct Hc'|].
      destruct (conflicts a b'); [|destruct Hc'].
      destruct Hc as [<-|[]]. destruct Hc' as [<-|[]].
      apply conflict_name_inj in E as [_ ->].
      f_equal. eapply iterrows_functional; eassumption.
  - intros [i a] [i' a'] c c' Hi Hi' Hc Hc' E.
    apply in_flat_map in Hc as [[j b] [_ Hc]].
    apply in_flat_map in Hc' as [[j' b'] [_ Hc']].
    destruct (j <=? i)%nat; [destruct Hc|].
    destruct (conflicts a b); [|destruct Hc].
    destruct (j' <=? i')%nat; [destruct Hc'|].
    destruct (conflicts a' b'); [|destruct Hc'].
    destruct Hc as [<-|[]]. destruct Hc' as [<-|[]].
    apply conflict_name_inj in E as [-> _].
    f_equal. eapply iterrows_functional; eassumption.
Qed.

Lemma count_named_absent (name : string) (cs : list LpConstraint) :
  ~ In name (map cname cs) -> count_named name cs = 0%nat.
Proof.
  unfold count_named. induction cs as [|c cs IH]; intros H; [reflexivity|].
  simpl in *. destruct (String.eqb (cname c) name) eqn:E.
  - apply String.eqb_eq in E. tauto.
  - apply IH. tauto.
Qed.

Lemma named_once (cs : list LpConstraint) :
  NoDup (map cname cs) ->
  forall c, In c cs -> count_named (cname c) cs = 1%nat.
Proof.
  induction cs as [|c0 cs IH]; intros Hnd c Hc; [destruct Hc|].
  simpl in Hnd. inversion Hnd as [|? ? Hnotin Hnd']; subst.
  unfold count_named. simpl.
  destruct (String.eqb (cname c0) (cname c)) eqn:E.
  - apply String.eqb_eq in E. simpl. f_equal.
    apply count_named_absent. now rewrite <- E.
  - destruct Hc as [->|Hc]; [now rewrite String.eqb_refl in E|].
    now apply IH.
Qed.

(** X7. The conflict loop adds one constraint [x_a + x_b <= 1], named
    [Conflict_i_j], for exactly the pairs of table positions [i < j] whose
    rows conflict, and each of them once: no row is paired with itself,
    the list of constraints has no repetition, the names of its
    constraints are pairwise distinct, and exactly one constraint of the
    list bears the name of a conflicting pair. *)
Theorem conflict_constraints_spec (course_data : list Row) :
  (forall c : LpConstraint,
      In c (CourseMatch.ConflictConstraints course_data)
      <-> exists (i j : nat) (a b : Row),
            nth_error course_data i = Some a
            /\ nth_error course_data j = Some b
            /\ (i < j)%nat
            /\ conflicts a b = true
            /\ c = CourseMatch.Conflict i j a b)
  /\ NoDup (map cname (CourseMatch.ConflictConstraints course_data))
  /\ NoDup (CourseMatch.ConflictConstraints course_data)
  /\ forall (i j : nat) (a b : Row),
       nth_error course_data i = Some a ->
       nth_error course_data j = Some b ->
       (i < j)%nat -> conflicts a b = true ->
       count_named (cname (CourseMatch.Conflict i j a b))
                   (CourseMatch.ConflictConstraints course_data)
       = 1%nat.
Proof.
  pose proof (conflict_names_NoDup course_data) as Hnames.
  pose proof (NoDup_map_inv _ _ Hnames) as Hnd.
  split; [apply conflict_constraints_In|].
  split; [exact Hnames|]. split; [exact Hnd|].
  intros i j a b Ha Hb Hij Hc.
  assert (Hin : In (CourseMatch.Conflict i j a b)
                   (CourseMatch.ConflictConstraints course_data))
    by (apply conflict_constraints_In; exists i, j, a, b; auto).
  exact (named_once _ Hnames _ Hin).
Qed.

Lemma conflicts_swap (a b : Row) :
  conflicts a b = true -> conflicts b a = true.
Proof.
  rewrite !conflicts_formula.
  now rewrite same_slot_sym, terms_overlap_sym, days_overlap_sym.
Qed.

(** X8. Pairwise page: two rows at different table positions that
    [conflicts] reports, in whichever order they stand in the table, are
    never both selected by a feasible assignment; skipping the pairs with
    [i >= j] loses no conflict. *)
Theorem conflicting_rows_not_both_selected
        (course_data : list Row) (credit_limit : Q) (student_year : string)
        (v : Assignment) (i j : nat) (a b : Row)
        (Hfeasible : feasible (CourseMatch.problem course_data credit_limit
                                                   student_year) v)
        (Ha : nth_error course_data i = Some a)
        (Hb : nth_error course_data j = Some b)
        (Hij : i <> j)
        (Hconflict : conflicts a b = true) :
  ~ (is_selected v a = true /\ is_selected v b = true).
Proof.
  intros [Sa Sb]. unfold is_selected in Sa, Sb.
  apply Qeq_bool_iff in Sa. apply Qeq_bool_iff in Sb.
  assert (Hle : v (SectionID a) + v (SectionID b) <= 1).
  { destruct (Nat.lt_ge_cases i j) as [Hlt|Hge].
    - exact (pairwise_conflict_enforced _ _ _ _ _ _ _ _ Hfeasible
               Ha Hb Hlt Hconflict).
    - assert (Hlt : (j < i)%nat) by lia.
      pose proof (pairwise_conflict_enforced _ _ _ _ _ _ _ _ Hfeasible
                    Hb Ha Hlt (conflicts_swap a b Hconflict)).
      lra. }
  rewrite Sa, Sb in Hle. revert Hle. apply Qlt_not_le. reflexivity.
Qed.

Lemma conflicting_rows_not_both_selected_witness :
  ~ (is_selected (Sample.only "A1") Sample.q1_MW = true
     /\ is_selected (Sample.only "A1") Sample.full_MW = true).
Proof.
  apply (conflicting_rows_not_both_selected
           [Sample.full_MW; Sample.q1_MW] 4 "1st Year" (Sample.only "A1")
           1 0 Sample.q1_MW Sample.full_MW).
  - vm_compute. reflexivity.
  - reflexivity.
  - reflexivity.
  - discriminate.
  - reflexivity.
Defined.

Lemma filter_two {A : Type} (p : A -> bool) (l : list A) :
  forall (i j : nat) (a b : A),
    nth_error l i = Some a -> nth_error l j = Some b -> (i < j)%nat ->
    p a = true -> p b = true ->
    (2 <= List.length (filter p l))%nat.
Proof.
  induction l as [|r rs IH]; intros i j a b Ha Hb Hij Pa Pb.
  - destruct i; discriminate.
  - destruct j as [|j]; [lia|]. simpl in Hb.
    destruct i as [|i].
    + injection Ha as ->. simpl. rewrite Pa. simpl.
      assert (In b (filter p rs)).
      { apply filter_In. split; [eapply nth_error_In; eassumption | exact Pb]. }
      destruct (filter p rs); [contradiction | simpl; lia].
    + simpl in Ha.
      assert (Hlt : (i < j)%nat) by lia.
      specialize (IH i j a b Ha Hb Hlt Pa Pb).
      simpl. destruct (p r); simpl; lia.
Qed.

(** X9. Grouped page: two rows at different table positions with the same
    group key are never both selected by a feasible assignment. *)
Theorem same_group_not_both_selected
        (course_data : list Row) (credit_limit : Q) (student_year : string)
        (v : Assignment) (i j : nat) (a b : Row)
        (Hfeasible : feasible (CourseMatchV2.problem course_data credit_limit
                                                     student_year) v)
        (Ha : nth_error course_data i = Some a)
        (Hb : nth_error course_data j = Some b)
        (Hij : i <> j)
        (Hgroup : get_group_id a = get_group_id b) :
  ~ (is_selected v a = true /\ is_selected v b = true).
Proof.
  intros [Sa Sb].
  pose proof (group_enforced course_data credit_limit student_year v
                             (get_group_id a) Hfeasible) as Hle.
  assert (Pa : String.eqb (get_group_id a) (get_group_id a)
               && is_selected v a = true)
    by (now rewrite String.eqb_refl, Sa).
  assert (Pb : String.eqb (get_group_id b) (get_group_id a)
               && is_selected v b = true)
    by (now rewrite <- Hgroup, String.eqb_refl, Sb).
  assert (H2 : (2 <= List.length
                       (filter (fun row =>
                                  String.eqb (get_group_id row)
                                             (get_group_id a)
                                  && is_selected v row)
                               course_data))%nat).
  { destruct (Nat.lt_ge_cases i j) as [Hlt|Hge].
    - exact (filter_two _ _ i j a b Ha Hb Hlt Pa Pb).
    - assert (Hlt : (j < i)%nat) by lia.
      exact (filter_two _ _ j i b a Hb Ha Hlt Pb Pa). }
  lia.
Qed.

Lemma same_group_not_both_selected_witness :
  ~ (is_selected (Sample.only "A1") Sample.full_MW = true
     /\ is_selected (Sample.only "A1")
                    (Sample.row "M1" "MGMT6110" "MW" "9:00" "Full" 1000 1 5)
        = true).
Proof.
  apply (same_group_not_both_selected
           [Sample.full_MW;
            Sample.row "M1" "MGMT6110" "MW" "9:00" "Full" 1000 1 5]
           4 "1st Year" (Sample.only "A1") 0 1).
  - vm_compute. reflexivity.
  - reflexivity.
  - reflexivity.
  - discriminate.
  - reflexivity.
Defined.

(** ** The group key of the grouped page *)

Lemma str_contains_char (c : ascii) (s : string) :
  str_contains (String c EmptyString) s = true
  <-> In c (list_ascii_of_string s).
Proof.
  induction s as [|c' s IH]; simpl.
  - split; [discriminate | tauto].
  - rewrite orb_true_iff, IH.
    destruct (Ascii.ascii_dec c c') as [->|Hne].
    + split; [now left | intros _; left; now destruct s].
    + split.
      * intros [H|H]; [discriminate | now right].
      * intros [H|H]; [congruence | now right].
Qed.

Lemma append_empty_r (s : string) : String.append s "" = s.
Proof. induction s as [|c s IH]; simpl; [reflexivity | now rewrite IH]. Qed.

Lemma get_group_id_formula (row : Row) :
  get_group_id row
  = String.append (Time row)
      (String.append "_"
         (String.append (Term row)
            (day_suffix (str_contains "M" (Days row))
                        (str_contains "W" (Days row))
                        (str_contains "T" (Days row))
                        (str_contains "R" (Days row))))).
Proof.
  unfold get_group_id, day_suffix, join. cbv zeta.
  assert (E : (if String.eqb (Term row) "Full"
               then [Time row] ++ ["Full"]
               else [Time row] ++ [Term row]) = [Time row; Term row]).
  { destruct (String.eqb (Term row) "Full") eqn:E; [|reflexivity].
    apply String.eqb_eq in E. now rewrite E. }
  rewrite E.
  destruct (str_contains "M" (Days row)), (str_contains "W" (Days row)),
           (str_contains "T" (Days row)), (str_contains "R" (Days row));
    try reflexivity.
  simpl. now rewrite append_empty_r.
Qed.

Lemma no_underscore_In (s : string) :
  no_underscore s = true <-> ~ In "_"%char (list_ascii_of_string s).
Proof.
  unfold no_underscore. rewrite negb_true_iff, <- str_contains_char.
  destruct (str_contains "_" s); split; congruence.
Qed.

Lemma day_suffix_shape (m w t r : bool) :
  day_suffix m w t r = "" \/ exists s, day_suffix m w t r = String "_" s.
Proof.
  destruct m, w, t, r; simpl;
    solve [now left | right; eexists; reflexivity].
Qed.

Lemma day_suffix_inj (m w t r m' w' t' r' : bool) :
  day_suffix m w t r = day_suffix m' w' t' r' ->
  m = m' /\ w = w' /\ t = t' /\ r = r'.
Proof.
  destruct m, w, t, r, m', w', t', r'; simpl; intros E;
    try discriminate E; repeat split.
Qed.

Lemma str_contains_in_set (c : ascii) (s : string) :
  str_contains (String c EmptyString) s
  = in_set (String c EmptyString) (set_of_str s).
Proof.
  pose proof (str_contains_char c s) as H1.
  pose proof (in_set_char c s) as H2.
  destruct (str_contains (String c "") s),
           (in_set (String c "") (set_of_str s));
    try reflexivity; [symmetry|]; tauto.
Qed.

(** The key in terms of the day tests of the pairwise predicate. *)
Lemma get_group_id_on_day (row : Row) :
  get_group_id row
  = String.append (Time row)
      (String.append "_"
         (String.append (Term row)
            (day_suffix (on_day "M" row) (on_day "W" row)
                        (on_day "T" row) (on_day "R" row)))).
Proof.
  rewrite get_group_id_formula. unfold on_day.
  now rewrite !str_contains_in_set.
Qed.

Lemma same_key_parts (a b : Row) :
  no_underscore (Time a) = true -> no_underscore (Time b) = true ->
  no_underscore (Term a) = true -> no_underscore (Term b) = true ->
  get_group_id a = get_group_id b ->
  Time a = Time b /\ Term a = Term b
  /\ on_day "M" a = on_day "M" b /\ on_day "W" a = on_day "W" b
  /\ on_day "T" a = on_day "T" b /\ on_day "R" a = on_day "R" b.
Proof.
  intros Hta Htb Hqa Hqb Hkey.
  rewrite !get_group_id_on_day in Hkey.
  apply no_underscore_In in Hta, Htb, Hqa, Hqb.
  apply split_at_separator in Hkey as [Ht Hkey];
    [| assumption | assumption | right; simpl; eauto | right; simpl; eauto].
  simpl in Hkey. injection Hkey as Hkey.
  apply split_at_separator in Hkey as [Hq Hkey];
    [| assumption | assumption | apply day_suffix_shape
     | apply day_suffix_shape].
  apply day_suffix_inj in Hkey. tauto.
Qed.

Lemma on_day_In (c : ascii) (row : Row) :
  on_day (String c EmptyString) row = true
  <-> In c (list_ascii_of_string (Days row)).
Proof. apply in_set_char. Qed.

Lemma on_day_eq_iff (c : ascii) (a b : Row) :
  on_day (String c EmptyString) a = on_day (String c EmptyString) b
  <-> (In c (list_ascii_of_string (Days a))
       <-> In c (list_ascii_of_string (Days b))).
Proof.
  rewrite <- !on_day_In.
  destruct (on_day (String c "") a), (on_day (String c "") b);
    intuition congruence.
Qed.

(** X10. The group key reads only the [Time], the [Term] and which of the
    letters M, W, T, R occur in [Days]: rows that agree on these have the
    same key, whatever the order of the day letters and whatever other
    characters [Days] holds. *)
Theorem group_key_determined (a b : Row)
        (Htime : Time a = Time b) (Hterm : Term a = Term b)
        (Hdays : forall c : ascii,
            In c ["M"; "W"; "T"; "R"]%char ->
            (In c (list_ascii_of_string (Days a))
             <-> In c (list_ascii_of_string (Days b)))) :
  get_group_id a = get_group_id b.
Proof.
  rewrite !get_group_id_on_day, Htime, Hterm.
  assert (E : forall c : ascii,
             In c ["M"; "W"; "T"; "R"]%char ->
             on_day (String c "") a = on_day (String c "") b)
    by (intros c Hc; apply on_day_eq_iff, Hdays, Hc).
  rewrite (E "M"%char), (E "W"%char), (E "T"%char), (E "R"%char);
    simpl; tauto.
Qed.

Lemma group_key_determined_witness :
  get_group_id (Sample.row "A1" "ACCT6110" "MW" "9:00" "Full" 1000 1 5)
  = get_group_id (Sample.row "E1" "STAT6130" "FWM" "9:00" "Full" 900 1 1).
Proof.
  apply group_key_determined; try reflexivity.
  intros c [<-|[<-|[<-|[<-|[]]]]]; simpl; intuition discriminate.
Defined.

(** X11. When neither [Time] nor [Term] of two rows holds an underscore,
    equal group keys mean equal [Time], equal [Term] and the same letters
    among M, W, T, R in [Days]: the key is then collision-free. *)
Theorem group_key_injective (a b : Row)
        (Hta : no_underscore (Time a) = true)
        (Htb : no_underscore (Time b) = true)
        (Hqa : no_underscore (Term a) = true)
        (Hqb : no_underscore (Term b) = true)
        (Hkey : get_group_id a = get_group_id b) :
  Time a = Time b
  /\ Term a = Term b
  /\ forall c : ascii,
       In c ["M"; "W"; "T"; "R"]%char ->
       (In c (list_ascii_of_string (Days a))
        <-> In c (list_ascii_of_string (Days b))).
Proof.
  destruct (same_key_parts a b Hta Htb Hqa Hqb Hkey)
    as [Ht [Hq [Em [Ew [Et Er]]]]].
  split; [exact Ht|]. split; [exact Hq|].
  intros c [<-|[<-|[<-|[<-|[]]]]]; apply on_day_eq_iff; assumption.
Qed.

Lemma group_key_injective_witness :
  Time Sample.full_MW
  = Time (Sample.row "E1" "STAT6130" "FWM" "9:00" "Full" 900 1 1).
Proof.
  apply (group_key_injective
           Sample.full_MW
           (Sample.row "E1" "STAT6130" "FWM" "9:00" "Full" 900 1 1));
    reflexivity.
Defined.

(** Without the hypothesis of X11 the key does collide: a [Term] holding
    an underscore can imitate a day letter. *)
Remark group_key_collision :
  exists a b : Row,
    Time a = Time b /\ Term a <> Term b /\ Days a <> Days b
    /\ get_group_id a = get_group_id b
    /\ conflicts a b = false.
Proof.
  exists (Sample.row "A1" "ACCT6110" "W" "9:00" "Q1_M" 1000 1 5),
         (Sample.row "B1" "FNCE6130" "MW" "9:00" "Q1" 1000 1 3).
  repeat split; try reflexivity; discriminate.
Qed.

(** X12. Grouped conflicts are pairwise conflicts on well-formed rows: if
    two rows whose [Time] and [Term] hold no underscore have the same group
    key and one of them meets on M, W, T or R, then [conflicts] holds of
    them. *)
Theorem same_group_conflicts (a b : Row)
        (Hta : no_underscore (Time a) = true)
        (Htb : no_underscore (Time b) = true)
        (Hqa : no_underscore (Term a) = true)
        (Hqb : no_underscore (Term b) = true)
        (Hkey : get_group_id a = get_group_id b)
        (Hday : meets_MWTR a = true) :
  conflicts a b = true.
Proof.
  destruct (same_key_parts a b Hta Htb Hqa Hqb Hkey)
    as [Ht [Hq [Em [Ew [Et Er]]]]].
  rewrite conflicts_formula.
  unfold same_slot, terms_overlap, days_overlap.
  rewrite Ht, Hq, !String.eqb_refl, <- Em, <- Ew, <- Et, <- Er, !andb_diag.
  exact Hday.
Qed.

Lemma same_group_conflicts_witness :
  conflicts Sample.full_MW
            (Sample.row "E1" "STAT6130" "FWM" "9:00" "Full" 900 1 1) = true.
Proof.
  apply same_group_conflicts; reflexivity.
Defined.

(** X13. The converse gap to C5: two rows with the same [Time] and [Term]
    neither of which meets on M, W, T or R have the same group key, so the
    grouped page keeps them apart, although [conflicts] is false of them
    and the pairwise page adds no constraint for them. *)
Theorem no_known_day_same_group (a b : Row)
        (Htime : Time a = Time b) (Hterm : Term a = Term b)
        (Ha : meets_MWTR a = false) (Hb : meets_MWTR b = false) :
  get_group_id a = get_group_id b /\ conflicts a b = false.
Proof.
  unfold meets_MWTR in Ha, Hb.
  rewrite !orb_false_iff in Ha, Hb.
  destruct Ha as [[[Ma Wa] Ta] Ra]. destruct Hb as [[[Mb Wb] Tb] Rb].
  split.
  - rewrite !get_group_id_on_day.
    now rewrite Htime, Hterm, Ma, Wa, Ta, Ra, Mb, Wb, Tb, Rb.
  - rewrite conflicts_formula. unfold days_overlap.
    rewrite Ma, Wa, Ta, Ra. simpl. apply andb_false_r.
Qed.

Lemma no_known_day_same_group_witness :
  get_group_id Sample.full_F
  = get_group_id (Sample.row "F2" "LGST6110" "F" "9:00" "Full" 800 1 2)
  /\ conflicts Sample.full_F
               (Sample.row "F2" "LGST6110" "F" "9:00" "Full" 800 1 2)
     = false.
Proof.
  apply no_known_day_same_group; reflexivity.
Defined.

(** ** The dicts [course_sections] and [grouped_courses] *)

Lemma dict_append_keys (d : list (string * list LpVariable))
      (k : string) (x : LpVariable) :
  (forall k', In k' (map fst (dict_append d k x))
              <-> k' = k \/ In k' (map fst d))
  /\ (NoDup (map fst d) -> NoDup (map fst (dict_append d k x))).
Proof.
  induction d as [|[k0 xs] d [IHin IHnd]]; simpl.
  - split.
    + intros k'. split; [intros [H|[]]; now left | intros [H|[]]; now left].
    + intros _. constructor; [intros [] | constructor].
  - destruct (String.eqb k0 k) eqn:E; simpl.
    + apply String.eqb_eq in E. subst k0.
      split; [intros k'; intuition congruence | auto].
    + split.
      * intros k'. rewrite IHin. intuition congruence.
      * intros Hnd. inversion Hnd as [|? ? Hnotin Hnd']; subst.
        constructor; [|now apply IHnd].
        rewrite IHin. apply String.eqb_neq in E. intros [H|H]; auto.
Qed.

Lemma group_by_keys (key : Row -> string) (rs : list Row) :
  forall d : list (string * list LpVariable),
    NoDup (map fst d) ->
    NoDup (map fst (fold_left
                      (fun d row => dict_append d (key row) (SectionID row))
                      rs d))
    /\ forall k,
         In k (map fst (fold_left
                          (fun d row =>
                             dict_append d (key row) (SectionID row))
                          rs d))
         <-> In k (map fst d) \/ exists row, In row rs /\ key row = k.
Proof.
  induction rs as [|r rs IH]; intros d Hnd; simpl.
  - split; [exact Hnd|]. intros k. split; [tauto|].
    intros [H|[row [[] _]]]. exact H.
  - destruct (dict_append_keys d (key r) (SectionID r)) as [Hin Hnd'].
    destruct (IH _ (Hnd' Hnd)) as [IH1 IH2]. split; [exact IH1|].
    intros k. rewrite IH2, Hin. split.
    + intros [[->|H]|[row [Hrow Hk]]]; eauto.
    + intros [H|[row [[->|Hrow] Hk]]]; eauto.
Qed.

(** X14. The dict filled by the [if k not in d: d[k] = []; d[k].append(x)]
    loops has one entry per key value that occurs in the table and no
    other; looking a key up gives the variables of exactly the rows with
    that key, in table order, and no entry is empty.  This is
    [course_sections] for the key ['Section'] and [grouped_courses] for the
    key [get_group_id]. *)
Theorem group_by_spec (key : Row -> string) (course_data : list Row) :
  NoDup (map fst (group_by key course_data))
  /\ (forall k, In k (map fst (group_by key course_data))
                <-> exists row, In row course_data /\ key row = k)
  /\ (forall k,
        dict_get (group_by key course_data) k
        = match map SectionID
                    (filter (fun row => String.eqb (key row) k) course_data)
          with
          | [] => None
          | ids => Some ids
          end)
  /\ course_sections course_data = group_by Section_ course_data
  /\ CourseMatchV2.grouped_courses course_data
     = group_by get_group_id course_data.
Proof.
  destruct (group_by_keys key course_data [] (NoDup_nil _)) as [Hnd Hin].
  split; [exact Hnd|]. split; [|split; [|split; reflexivity]].
  - intros k. unfold group_by. rewrite Hin. simpl. tauto.
  - intros k. unfold group_by. rewrite dict_get_fold. reflexivity.
Qed.

(** ** The displayed table *)




(** The page's own frame is the case of the nine columns of [Row]. *)
Lemma displayed_is_display_of (course_data : list Row) (v : Assignment) :
  displayed course_data v
  = display_of (selected_courses_data course_data v).
Proof. reflexivity. Qed.

(** ** Consequences of the budget and same-course constraints *)

Lemma total_two (f : Row -> Q) (p : Row -> bool) (l : list Row) :
  (forall row, In row l -> 0 <= f row) ->
  forall (i j : nat) (a b : Row),
    nth_error l i = Some a -> nth_error l j = Some b -> (i < j)%nat ->
    p a = true -> p b = true ->
    f a + f b <= total f (filter p l).
Proof.
  induction l as [|r rs IH]; intros Hpos i j a b Ha Hb Hij Pa Pb.
  - destruct i; discriminate.
  - assert (Hrs : forall row, In row rs -> 0 <= f row)
      by (intros row H; apply Hpos; now right).
    assert (Hnn : 0 <= total f (filter p rs)).
    { apply total_nonneg. intros row H. apply filter_In in H as [H _].
      now apply Hrs. }
    destruct j as [|j]; [lia|]. simpl in Hb.
    destruct i as [|i].
    + injection Ha as ->. simpl. rewrite Pa. simpl.
      assert (Hb' : f b <= total f (filter p rs)).
      { clear - Hrs Hb Pb. revert j Hb.
        induction rs as [|r rs IH']; intros j Hb; [destruct j; discriminate|].
        assert (Hrs' : forall row, In row rs -> 0 <= f row)
          by (intros row H; apply Hrs; now right).
        assert (Hnn : 0 <= total f (filter p rs)).
        { apply total_nonneg. intros row H. apply filter_In in H as [H _].
          now apply Hrs'. }
        pose proof (Hrs r (or_introl eq_refl)) as Hr.
        destruct j as [|j].
        - injection Hb as ->. simpl. rewrite Pb. simpl. lra.
        - simpl in Hb. specialize (IH' Hrs' j Hb).
          simpl. destruct (p r); simpl; lra. }
      lra.
    + simpl in Ha. assert (Hlt : (i < j)%nat) by lia.
      specialize (IH Hrs i j a b Ha Hb Hlt Pa Pb).
      pose proof (Hpos r (or_introl eq_refl)) as Hr.
      simpl. destruct (p r); simpl; lra.
Qed.

(** X16. When no price is negative, two rows at different table positions
    whose prices together exceed the budget of the year are never both
    selected, whether or not they conflict. *)
Theorem over_budget_pair_not_both_selected
        (course_data : list Row) (credit_limit : Q) (student_year : string)
        (v : Assignment) (i j : nat) (a b : Row)
        (Hfeasible : feasible_in_a_page course_data credit_limit
                                        student_year v)
        (Hprices : forall row, In row course_data -> 0 <= Price row)
        (Ha : nth_error course_data i = Some a)
        (Hb : nth_error course_data j = Some b)
        (Hij : i <> j)
        (Hover : budget_of student_year < Price a + Price b) :
  ~ (is_selected v a = true /\ is_selected v b = true).
Proof.
  intros [Sa Sb].
  pose proof (page_constraint _ _ _ _ _ Hfeasible
                (budget_in_problems course_data credit_limit student_year _
                   eq_refl)) as Hle.
  simpl in Hle.
  rewrite (value_selected v Price course_data
             (page_binary _ _ _ _ Hfeasible)) in Hle.
  assert (H2 : Price a + Price b
               <= total Price (filter (is_selected v) course_data)).
  { destruct (Nat.lt_ge_cases i j) as [Hlt|Hge].
    - exact (total_two Price _ _ Hprices i j a b Ha Hb Hlt Sa Sb).
    - assert (Hlt : (j < i)%nat) by lia.
      pose proof (total_two Price _ _ Hprices j i b a Hb Ha Hlt Sb Sa). lra. }
  lra.
Qed.

Lemma over_budget_pair_not_both_selected_witness :
  ~ (is_selected (Sample.only "P1")
                 (Sample.row "P1" "OIDD6110" "M" "8:30" "Q1" 2500 1 5) = true
     /\ is_selected (Sample.only "P1")
                    (Sample.row "P2" "OIDD6120" "T" "10:15" "Q2" 2500 1 5)
        = true).
Proof.
  apply (over_budget_pair_not_both_selected
           [Sample.row "P1" "OIDD6110" "M" "8:30" "Q1" 2500 1 5;
            Sample.row "P2" "OIDD6120" "T" "10:15" "Q2" 2500 1 5]
           4 "1st Year" (Sample.only "P1") 0 1).
  - left. vm_compute. reflexivity.
  - intros row [<-|[<-|[]]]; vm_compute; discriminate.
  - reflexivity.
  - reflexivity.
  - discriminate.
  - reflexivity.
Defined.

(** X17. A [SectionID] that occurs in two rows of the same course stands
    for one variable counted twice in that course's constraint, so neither
    row is ever selected. *)
Theorem repeated_section_id_never_selected
        (course_data : list Row) (credit_limit : Q) (student_year : string)
        (v : Assignment) (i j : nat) (a b : Row)
        (Hfeasible : feasible_in_a_page course_data credit_limit
                                        student_year v)
        (Ha : nth_error course_data i = Some a)
        (Hb : nth_error course_data j = Some b)
        (Hij : i <> j)
        (Hid : SectionID a = SectionID b)
        (Hcourse : Section_ a = Section_ b) :
  is_selected v a = false /\ is_selected v b = false.
Proof.
  assert (Hsame : is_selected v b = is_selected v a)
    by (unfold is_selected; now rewrite Hid).
  rewrite Hsame. destruct (is_selected v a) eqn:Sa; [exfalso | now split].
  assert (Hle : (List.length
                   (filter (fun row => String.eqb (Section_ row) (Section_ a)
                                       && is_selected v row)
                           course_data) <= 1)%nat).
  { apply at_most_one_per_key.
    - exact (page_binary _ _ _ _ Hfeasible).
    - intros k xs Hk.
      apply (page_constraint _ _ _ _
               (mkConstraint (lpSum_vars xs) 1
                             (String.append "OneSectionPerCourse_" k))
               Hfeasible).
      apply one_section_in_problems.
      unfold OneSectionPerCourse, course_sections. apply in_map_iff.
      exists (k, xs). split; [reflexivity | exact Hk]. }
  assert (Pa : String.eqb (Section_ a) (Section_ a) && is_selected v a = true)
    by (now rewrite String.eqb_refl, Sa).
  assert (Pb : String.eqb (Section_ b) (Section_ a) && is_selected v b = true)
    by (now rewrite <- Hcourse, String.eqb_refl, Hsame).
  assert (H2 : (2 <= List.length
                       (filter (fun row =>
                                  String.eqb (Section_ row) (Section_ a)
                                  && is_selected v row)
                               course_data))%nat).
  { destruct (Nat.lt_ge_cases i j) as [Hlt|Hge].
    - exact (filter_two _ _ i j a b Ha Hb Hlt Pa Pb).
    - assert (Hlt : (j < i)%nat) by lia.
      exact (filter_two _ _ j i b a Hb Ha Hlt Pb Pa). }
  lia.
Qed.

Lemma repeated_section_id_never_selected_witness :
  is_selected Sample.none_selected Sample.full_MW = false
  /\ is_selected Sample.none_selected
                 (Sample.row "A1" "ACCT6110" "TR" "13:45" "Full" 1000 1 4)
     = false.
Proof.
  apply (repeated_section_id_never_selected
           [Sample.full_MW;
            Sample.row "A1" "ACCT6110" "TR" "13:45" "Full" 1000 1 4]
           4 "1st Year" Sample.none_selected 0 1).
  - left. vm_compute. reflexivity.
  - reflexivity.
  - reflexivity.
  - discriminate.
  - reflexivity.
  - reflexivity.
Defined.

(** ** Existence of an optimal assignment *)

Section Optimum.

Variable p : LpProblem.
Hypothesis Hscoped : well_scoped p.

Lemma value_ext (e : LpAffineExpression) (v v' : Assignment) :
  (forall c x, In (c, x) e -> v x == v' x) ->
  value e v == value e v'.
Proof.
  induction e as [|[c x] e IH]; intros H; simpl; [reflexivity|].
  rewrite (H c x (or_introl eq_refl)).
  rewrite IH; [reflexivity|]. intros c' x' Hin. apply (H c' x'). now right.
Qed.

Lemma rounded_agrees (v : Assignment) (x : LpVariable) :
  feasible p v -> In x (variables p) -> rounded p v x == v x.
Proof.
  intros Hf Hx. unfold rounded, indicator.
  assert (Hb : is_binary v x = true).
  { unfold feasible, feasibleb in Hf. apply andb_true_iff in Hf as [Hf _].
    rewrite forallb_forall in Hf. now apply Hf. }
  destruct (binary_cases v x Hb) as [[E Hv]|[E Hv]].
  - assert (Hin : str_in_list x (filter (fun x => Qeq_bool (v x) 1)
                                        (variables p)) = true).
    { apply str_in_list_In, filter_In. now split. }
    rewrite Hin. now symmetry.
  - destruct (str_in_list x _) eqn:Hin; [|now symmetry].
    apply str_in_list_In, filter_In in Hin as [_ Hin]. congruence.
Qed.

Lemma indicator_binary (chosen : list LpVariable) (x : LpVariable) :
  is_binary (indicator chosen) x = true.
Proof.
  unfold is_binary, indicator. destruct (str_in_list x chosen); reflexivity.
Qed.

Lemma rounded_feasible (v : Assignment) :
  feasible p v -> feasible p (rounded p v).
Proof.
  intros Hf. unfold feasible, feasibleb. apply andb_true_iff. split.
  - apply forallb_forall. intros x _. apply indicator_binary.
  - apply forallb_forall. intros k Hk. unfold satisfies.
    apply Qle_bool_iff.
    rewrite (value_ext (lhs k) (rounded p v) v).
    + now apply (feasible_constraint v p k).
    + intros c x Hin. apply rounded_agrees; [exact Hf|].
      destruct Hscoped as [_ Hs]. exact (Hs k c x Hk Hin).
Qed.

Lemma rounded_objective (v : Assignment) :
  feasible p v ->
  value (objective p) (rounded p v) == value (objective p) v.
Proof.
  intros Hf. apply value_ext. intros c x Hin.
  apply rounded_agrees; [exact Hf|].
  destruct Hscoped as [Hs _]. exact (Hs c x Hin).
Qed.

Lemma filter_in_subsets (f : LpVariable -> bool) (xs : list LpVariable) :
  In (filter f xs) (subsets xs).
Proof.
  induction xs as [|x xs IH]; simpl; [now left|].
  apply in_app_iff. destruct (f x); [left; now apply in_map | now right].
Qed.

Lemma best_of (g : list LpVariable -> Q) (l : list (list LpVariable)) :
  l <> [] -> exists m, In m l /\ forall c, In c l -> g c <= g m.
Proof.
  induction l as [|a l IH]; intros Hne; [congruence|].
  destruct l as [|b l].
  - exists a. split; [now left|]. intros c [<-|[]]. apply Qle_refl.
  - destruct IH as [m [Hm Hmax]]; [discriminate|].
    destruct (Qlt_le_dec (g m) (g a)) as [Hlt|Hle].
    + exists a. split; [now left|]. intros c [<-|Hc]; [apply Qle_refl|].
      specialize (Hmax c Hc). lra.
    + exists m. split; [now right|]. intros c [<-|Hc]; [exact Hle|].
      now apply Hmax.
Qed.

(** A well-scoped problem over binary variables that has a feasible
    assignment has an optimal one. *)
Lemma optimum_exists :
  (exists v, feasible p v) -> exists v, optimal p v.
Proof.
  intros [v0 Hv0].
  set (candidates := filter (fun chosen => feasibleb p (indicator chosen))
                            (subsets (variables p))).
  assert (Hcand : forall v, feasible p v ->
            In (filter (fun x => Qeq_bool (v x) 1) (variables p)) candidates).
  { intros v Hv. apply filter_In. split; [apply filter_in_subsets|].
    exact (rounded_feasible v Hv). }
  destruct (best_of (fun chosen => value (objective p) (indicator chosen))
                    candidates) as [m [Hm Hmax]].
  { intros E. specialize (Hcand v0 Hv0). rewrite E in Hcand. destruct Hcand. }
  exists (indicator m). split.
  - apply filter_In in Hm as [_ Hm]. exact Hm.
  - intros v' Hv'. rewrite <- (rounded_objective v' Hv').
    exact (Hmax _ (Hcand v' Hv')).
Qed.

End Optimum.

Lemma dict_append_vars (d : list (string * list LpVariable))
      (k : string) (x y : LpVariable) :
  In y (dict_vars (dict_append d k x)) <-> y = x \/ In y (dict_vars d).
Proof.
  unfold dict_vars. induction d as [|[k0 xs] d IH]; simpl.
  - intuition.
  - destruct (String.eqb k0 k); simpl; rewrite !in_app_iff.
    + simpl. intuition.
    + rewrite IH. intuition.
Qed.

Lemma group_by_vars (key : Row -> string) (course_data : list Row)
      (y : LpVariable) :
  In y (dict_vars (group_by key course_data))
  -> In y (map SectionID course_data).
Proof.
  unfold group_by.
  assert (G : forall rs d,
             In y (dict_vars (fold_left
                                (fun d row =>
                                   dict_append d (key row) (SectionID row))
                                rs d)) ->
             In y (dict_vars d) \/ In y (map SectionID rs)).
  { induction rs as [|r rs IH]; intros d H; simpl in *; [now left|].
    apply IH in H as [H|H]; [|now right; right].
    apply dict_append_vars in H as [->|H]; [right; now left | now left]. }
  intros H. apply G in H as [[]|H]. exact H.
Qed.

Lemma entry_vars (key : Row -> string) (course_data : list Row)
      (k : string) (xs : list LpVariable) (c : Q) (x : LpVariable) :
  In (k, xs) (group_by key course_data) ->
  In (c, x) (lpSum_vars xs) ->
  In x (course_vars course_data).
Proof.
  intros Hk Hx. unfold course_vars. apply nodup_In.
  apply (group_by_vars key). unfold dict_vars. apply in_flat_map.
  exists (k, xs). split; [exact Hk|]. simpl.
  unfold lpSum_vars in Hx. apply in_map_iff in Hx as [x' [[= _ ->] Hx]].
  exact Hx.
Qed.

Lemma row_term_var (f : Row -> Q) (course_data : list Row)
      (c : Q) (x : LpVariable) :
  In (c, x) (map (fun row => (f row, SectionID row)) course_data) ->
  In x (course_vars course_data).
Proof.
  intros H. apply in_map_iff in H as [row [[= _ <-] Hrow]].
  unfold course_vars. apply nodup_In. now apply in_map.
Qed.

Lemma shared_scoped (course_data : list Row) (credit_limit : Q)
      (k : LpConstraint) (c : Q) (x : LpVariable) :
  In k (OneSectionPerCourse course_data
        ++ ExclusiveConstraints course_data
        ++ [CreditLimitConstraint course_data credit_limit]) ->
  In (c, x) (lhs k) -> In x (course_vars course_data).
Proof.
  rewrite !in_app_iff. intros [H|[H|[<-|[]]]] Hx.
  - unfold OneSectionPerCourse in H.
    apply in_map_iff in H as [[name xs] [<- Hin]].
    exact (entry_vars Section_ course_data name xs c x Hin Hx).
  - unfold ExclusiveConstraints in H. apply in_map_iff in H as [g [<- _]].
    simpl in Hx. rewrite course_group_vars_rows in Hx.
    unfold lpSum_vars in Hx. rewrite map_map in Hx.
    apply in_map_iff in Hx as [row [[= _ <-] Hrow]].
    unfold course_vars. apply nodup_In, in_map.
    eapply rows_of_group_in; eassumption.
  - exact (row_term_var Credits course_data c x Hx).
Qed.

Lemma pairwise_well_scoped (course_data : list Row) (credit_limit : Q)
      (student_year : string) :
  well_scoped (CourseMatch.problem course_data credit_limit student_year).
Proof.
  split; simpl.
  - intros c x. apply row_term_var.
  - intros k c x [<-|Hk] Hx; [exact (row_term_var Price _ c x Hx)|].
    apply in_app_iff in Hk as [Hk|Hk];
      [|exact (shared_scoped _ _ k c x Hk Hx)].
    unfold CourseMatch.ConflictConstraints in Hk.
    apply in_flat_map in Hk as [[i a] [Ha Hk]].
    apply in_flat_map in Hk as [[j b] [Hb Hk]].
    destruct (j <=? i)%nat; [destruct Hk|].
    destruct (conflicts a b); [|destruct Hk].
    destruct Hk as [<-|[]].
    apply iterrows_In, nth_error_In in Ha.
    apply iterrows_In, nth_error_In in Hb.
    unfold course_vars. apply nodup_In.
    destruct Hx as [[= _ <-]|[[= _ <-]|[]]]; now apply in_map.
Qed.

Lemma grouped_well_scoped (course_data : list Row) (credit_limit : Q)
      (student_year : string) :
  well_scoped (CourseMatchV2.problem course_data credit_limit student_year).
Proof.
  split; simpl.
  - intros c x. apply row_term_var.
  - intros k c x [<-|Hk] Hx; [exact (row_term_var Price _ c x Hx)|].
    apply in_app_iff in Hk as [Hk|Hk];
      [|exact (shared_scoped _ _ k c x Hk Hx)].
    unfold CourseMatchV2.GroupConstraints in Hk.
    apply in_map_iff in Hk as [[g xs] [<- Hin]].
    exact (entry_vars get_group_id course_data g xs c x Hin Hx).
Qed.

(** X18. With a credit limit that is not negative, the model of each page
    has an optimal assignment, for every table and year: a feasible
    assignment whose objective value no feasible assignment exceeds.  The
    model is thus neither infeasible nor unbounded. *)
Theorem optimal_assignment_exists (course_data : list Row) (credit_limit : Q)
        (student_year : string) (Hlimit : 0 <= credit_limit) :
  (exists v,
      optimal (CourseMatch.problem course_data credit_limit student_year) v)
  /\ (exists v,
         optimal (CourseMatchV2.problem course_data credit_limit student_year)
                 v).
Proof.
  split.
  - apply optimum_exists; [apply pairwise_well_scoped|].
    exists (fun _ => 0). now apply zero_feasible_pairwise.
  - apply optimum_exists; [apply grouped_well_scoped|].
    exists (fun _ => 0). now apply zero_feasible_grouped.
Qed.

Lemma optimal_assignment_exists_witness :
  exists v,
    optimal (CourseMatch.problem [Sample.full_MW; Sample.q1_MW] 4 "1st Year")
            v.
Proof.
  apply (optimal_assignment_exists [Sample.full_MW; Sample.q1_MW] 4
                                   "1st Year").
  discriminate.
Defined.

(** X19. An optimal assignment of either page's model, for a credit limit
    that is not negative, has an objective value of at least 0: the
    ['Weighted Utility'] total of the selected rows is never negative. *)
Theorem optimal_weighted_utility_nonneg
        (course_data : list Row) (credit_limit : Q) (student_year : string)
        (v : Assignment)
        (Hlimit : 0 <= credit_limit)
        (Hoptimal :
           optimal (CourseMatch.problem course_data credit_limit student_year)
                   v
           \/ optimal (CourseMatchV2.problem course_data credit_limit
                                             student_year) v) :
  0 <= total (fun r => Utility r * Credits r) (selected_rows course_data v).
Proof.
  rewrite selected_rows_filter.
  assert (Hf : feasible_in_a_page course_data credit_limit student_year v)
    by (destruct Hoptimal as [[H _]|[H _]]; [now left | now right]).
  rewrite <- (value_selected v (fun r => Utility r * Credits r) course_data
                (page_binary _ _ _ _ Hf)).
  destruct Hoptimal as [[_ Hmax]|[_ Hmax]].
  - specialize (Hmax (fun _ => 0)
                     (zero_feasible_pairwise _ _ student_year Hlimit)).
    simpl in Hmax. unfold objective_of in Hmax.
    rewrite value_zero in Hmax. exact Hmax.
  - specialize (Hmax (fun _ => 0)
                     (zero_feasible_grouped _ _ student_year Hlimit)).
    simpl in Hmax. unfold objective_of in Hmax.
    rewrite value_zero in Hmax. exact Hmax.
Qed.

Lemma optimal_weighted_utility_nonneg_witness :
  0 <= total (fun r => Utility r * Credits r)
             (selected_rows [Sample.no_credit] Sample.all_selected).
Proof.
  apply (optimal_weighted_utility_nonneg [Sample.no_credit] 0 "1st Year"
                                         Sample.all_selected).
  - discriminate.
  - left. split.
    + vm_compute. reflexivity.
    + intros v' _. simpl. lra.
Defined.

(** X20. With [credit_limit = 0] and no negative [Credits], every feasible
    assignment has objective value 0 and is therefore optimal: the solver's
    choice among them, the empty selection included, is a tie. *)
Theorem zero_credit_limit_all_optimal
        (course_data : list Row) (student_year : string) (v : Assignment)
        (Hcredits : forall row, In row course_data -> 0 <= Credits row)
        (Hfeasible : feasible (CourseMatch.problem course_data 0 student_year)
                              v) :
  value (objective (CourseMatch.problem course_data 0 student_year)) v == 0
  /\ optimal (CourseMatch.problem course_data 0 student_year) v.
Proof.
  assert (Hzero : forall w,
             feasible (CourseMatch.problem course_data 0 student_year) w ->
             value (objective_of course_data) w == 0).
  { intros w Hw.
    assert (Hpage : feasible_in_a_page course_data 0 student_year w)
      by now left.
    unfold objective_of.
    rewrite (value_selected w (fun r => Utility r * Credits r) course_data
               (page_binary _ _ _ _ Hpage)).
    assert (Hsel : forall row, In row (filter (is_selected w) course_data) ->
                               Credits row == 0).
    { apply total_zero.
      - intros row Hrow. apply filter_In in Hrow as [Hrow _].
        now apply Hcredits.
      - rewrite <- (value_selected w Credits course_data
                      (page_binary _ _ _ _ Hpage)).
        exact (page_constraint _ _ _ _ _ Hpage
                 (credit_in_problems course_data 0 student_year _ eq_refl)). }
    induction (filter (is_selected w) course_data) as [|r rs IH];
      [reflexivity|].
    cbn [total]. rewrite IH by (intros row H; apply Hsel; now right).
    rewrite (Hsel r (or_introl eq_refl)). ring. }
  split; [exact (Hzero v Hfeasible)|].
  split; [exact Hfeasible|].
  intros v' Hv'. simpl. rewrite (Hzero v' Hv'), (Hzero v Hfeasible).
  apply Qle_refl.
Qed.

Lemma zero_credit_limit_all_optimal_witness :
  optimal (CourseMatch.problem [Sample.no_credit; Sample.full_MW] 0
                               "1st Year")
          (Sample.only "Z1").
Proof.
  apply (zero_credit_limit_all_optimal [Sample.no_credit; Sample.full_MW]
                                       "1st Year" (Sample.only "Z1")).
  - intros row [<-|[<-|[]]]; vm_compute; discriminate.
  - vm_compute. reflexivity.
Defined.

Lemma feasible_weaken (p p' : LpProblem) (v : Assignment) :
  variables p' = variables p ->
  (forall c', In c' (constraints p') ->
              exists c, In c (constraints p)
                        /\ lhs c = lhs c' /\ rhs c <= rhs c') ->
  feasible p v -> feasible p' v.
Proof.
  intros Hv Hc Hf. pose proof Hf as Hf'.
  unfold feasible, feasibleb in *. rewrite Hv.
  apply andb_true_iff in Hf' as [Hbin _]. rewrite Hbin. simpl.
  apply forallb_forall. intros c' Hc'.
  destruct (Hc c' Hc') as [c [Hin [El Er]]].
  pose proof (feasible_constraint v p c Hf Hin) as Hle.
  unfold satisfies. apply Qle_bool_iff. rewrite <- El. lra.
Qed.

(** X21. Feasibility is monotone in the two limits, in each page: an
    assignment feasible for the model of a page at some credit limit and
    ['1st Year'] is feasible for the model of the same page at every larger
    credit limit and any year, whose budget is 4400 or 5500. *)
Theorem feasible_monotone (course_data : list Row)
        (credit_limit credit_limit' : Q) (student_year : string)
        (v : Assignment)
        (Hlimit : credit_limit <= credit_limit') :
  (feasible (CourseMatch.problem course_data credit_limit "1st Year") v ->
   feasible (CourseMatch.problem course_data credit_limit' student_year) v)
  /\ (feasible (CourseMatchV2.problem course_data credit_limit "1st Year") v ->
      feasible (CourseMatchV2.problem course_data credit_limit' student_year)
               v).
Proof.
  assert (Hbudget : budget_of "1st Year" <= budget_of student_year).
  { unfold budget_of. destruct (String.eqb student_year "1st Year");
      simpl; [apply Qle_refl | discriminate]. }
  split; (apply feasible_weaken; [reflexivity|]);
    intros c' [<-|Hc'];
    try (exists (BudgetConstraint course_data (budget_of "1st Year"));
         split; [now left|]; split; [reflexivity | exact Hbudget]);
    rewrite !in_app_iff in Hc';
    (destruct Hc' as [H|[H|[H|[<-|[]]]]];
     [ exists c'; split; [right; rewrite !in_app_iff; tauto|];
       split; [reflexivity | apply Qle_refl] ..
     | exists (CreditLimitConstraint course_data credit_limit);
       split; [right; rewrite !in_app_iff; simpl; tauto|];
       split; [reflexivity | exact Hlimit] ]).
Qed.

Lemma feasible_monotone_witness :
  feasible (CourseMatch.problem [Sample.full_MW; Sample.full_TR] 4
                                "2nd Year")
           Sample.all_selected
  /\ feasible (CourseMatchV2.problem [Sample.full_MW; Sample.full_TR] 4
                                     "2nd Year")
              Sample.all_selected.
Proof.
  assert (Hlimit : 2 <= 4) by discriminate.
  destruct (feasible_monotone [Sample.full_MW; Sample.full_TR] 2 4
                              "2nd Year" Sample.all_selected Hlimit)
    as [H1 H2].
  split; [apply H1 | apply H2]; vm_compute; reflexivity.
Defined.

(** ** Instances of the characterisations *)

Lemma selected_rows_spec_witness :
  In Sample.full_MW
     (selected_rows [Sample.full_MW; Sample.q1_MW] (Sample.only "A1")).
Proof.
  apply (proj2 (proj2 (selected_rows_spec [Sample.full_MW; Sample.q1_MW]
                                          (Sample.only "A1")))).
  split; [now left | reflexivity].
Defined.

Lemma conflicts_iff_witness :
  conflicts Sample.full_MW Sample.q1_MW = true.
Proof.
  apply (proj2 (conflicts_iff Sample.full_MW Sample.q1_MW)).
  split; [reflexivity|]. split.
  - right. left. split; [reflexivity | simpl; tauto].
  - exists "M"%char. simpl. tauto.
Defined.

Lemma conflict_constraints_spec_witness :
  count_named "Conflict_0_1"
              (CourseMatch.ConflictConstraints [Sample.full_MW; Sample.q1_MW])
  = 1%nat.
Proof.
  refine (proj2 (proj2 (proj2 (conflict_constraints_spec
                                 [Sample.full_MW; Sample.q1_MW])))
                0%nat 1%nat Sample.full_MW Sample.q1_MW _ _ _ _);
    try reflexivity. lia.
Defined.

Lemma group_by_spec_witness :
  dict_get (course_sections [Sample.full_MW; Sample.q1_MW; Sample.full_F])
           "ACCT6110" = Some ["A1"; "A2"]
  /\ dict_get (course_sections [Sample.full_MW; Sample.q1_MW; Sample.full_F])
              "MGMT6110" = None.
Proof.
  destruct (group_by_spec Section_
              [Sample.full_MW; Sample.q1_MW; Sample.full_F])
    as [_ [_ [Hget _]]].
  split; [exact (Hget "ACCT6110") | exact (Hget "MGMT6110")].
Defined.
